(** * A ledger model of app.py

    The application keeps two tables, [User] and [Transaction], and never
    stores a balance: every handler recomputes it from the transaction rows
    of the account.  This file embeds the tables, the request handlers that
    read and write them and the helpers they call, and proves the ledger
    properties of the specification about them.

    Modelling conventions.
    - The column [Transaction.amount] is a Python float: amounts are the
      binary64 numbers of the kernel ([PrimFloat.float]), sums and
      comparisons are the rounding ones.  The builtin [sum] adds from left
      to right, as CPython does up to version 3.11.
    - Strings are the UTF-8 bytes of Python's strings.
    - [float] is the builtin on a form value: Unicode white space and
      decimal digits (Unicode 14) become ASCII, digit separators are
      checked and removed, white space is stripped, and the literal --
      decimal with optional exponent, or inf, infinity, nan -- is rounded to
      the nearest binary64 number, ties to even.
    - SQLite stores a NaN as NULL, which the NOT NULL column refuses, and
      a negative zero as zero.
    - [datetime.utcnow()] and [random.randint] are inputs of the request.
    - Rendering, sessions, password hashing and the saving of uploaded
      files are left out, as are the profile columns of [User], which no
      ledger code reads. *)

From Stdlib Require Import List Bool Arith ZArith QArith Lia Lqa.
From Stdlib Require Import Ascii String DecimalString.
From Stdlib Require Import Permutation Sorted.
From Stdlib Require Import Floats.
From Corelib Require Import SpecFloat FloatOps FloatAxioms.
Import ListNotations.

Open Scope string_scope.
Open Scope Q_scope.

(** A decimal literal stands for the nearest binary64 number, as it does in
    Python. *)
#[local] Set Warnings "-inexact-float".

(** ** Python string helpers used by the handlers *)

Definition byte (c : ascii) : Z := Z.of_nat (nat_of_ascii c).

Definition continuation (c : ascii) : Z := (byte c - 128)%Z.

(** The characters of a string, each with its code point and its bytes.
    On bytes that encode no string a lead byte is read as U+FFFD. *)
Fixpoint chars (s : string) : list (Z * string) :=
  match s with
  | EmptyString => []
  | String c0 s1 =>
      let b0 := byte c0 in
      if (b0 <? 128)%Z then (b0, String c0 EmptyString) :: chars s1
      else
        match s1 with
        | String c1 s2 =>
            if ((192 <=? b0) && (b0 <? 224))%Z then
              (((b0 - 192) * 64 + continuation c1)%Z, String c0 (String c1 EmptyString))
                :: chars s2
            else
              match s2 with
              | String c2 s3 =>
                  if ((224 <=? b0) && (b0 <? 240))%Z then
                    ((((b0 - 224) * 64 + continuation c1) * 64 + continuation c2)%Z,
                     String c0 (String c1 (String c2 EmptyString))) :: chars s3
                  else
                    match s3 with
                    | String c3 s4 =>
                        if (240 <=? b0)%Z then
                          (((((b0 - 240) * 64 + continuation c1) * 64 + continuation c2) * 64
                            + continuation c3)%Z,
                           String c0 (String c1 (String c2 (String c3 EmptyString))))
                            :: chars s4
                        else (65533%Z, String c0 EmptyString) :: chars s1
                    | EmptyString => (65533%Z, String c0 EmptyString) :: chars s1
                    end
              | EmptyString => (65533%Z, String c0 EmptyString) :: chars s1
              end
        | EmptyString => [(65533%Z, String c0 EmptyString)]
        end
  end.

(** [str.isspace] on one character (Unicode 14). *)
Definition unicode_space (cp : Z) : bool :=
  ((9 <=? cp) && (cp <=? 13) || (28 <=? cp) && (cp <=? 32)
   || (cp =? 133) || (cp =? 160) || (cp =? 5760)
   || (8192 <=? cp) && (cp <=? 8202)
   || (cp =? 8232) || (cp =? 8233) || (cp =? 8239) || (cp =? 8287) || (cp =? 12288))%Z.

Fixpoint lstrip_chars (cs : list (Z * string)) : list (Z * string) :=
  match cs with
  | c :: rest => if unicode_space (fst c) then lstrip_chars rest else cs
  | [] => []
  end.

(** [s.strip()] *)
Definition strip (s : string) : string :=
  String.concat EmptyString
    (map snd (rev (lstrip_chars (rev (lstrip_chars (chars s)))))).

(** [s.replace(old, "")] for a one-character [old]. *)
Fixpoint remove_char (old : ascii) (s : string) : string :=
  match s with
  | String c s' =>
      if Ascii.eqb c old then remove_char old s' else String c (remove_char old s')
  | EmptyString => EmptyString
  end.

Fixpoint drop (n : nat) (s : string) : string :=
  match n, s with
  | S k, String _ s' => drop k s'
  | _, _ => s
  end.

(** [s.split(sep)[-1]]: the text after the last occurrence of [sep] found by
    the left-to-right, non-overlapping scan of [str.split]; all of [s] when
    [sep] does not occur.  [skip] counts the characters of a separator
    still to be passed over, [cur] is the last piece started so far. *)
Fixpoint split_last_from (sep s : string) (skip : nat) (cur : string) : string :=
  match s with
  | EmptyString => cur
  | String _ s' =>
      match skip with
      | S k => split_last_from sep s' k cur
      | O =>
          if prefix sep s
          then split_last_from sep s' (String.length sep - 1) (drop (String.length sep) s)
          else split_last_from sep s' 0 cur
      end
  end.

Definition split_last (sep s : string) : string := split_last_from sep s 0 s.

(** The naira sign, U+20A6, as its three UTF-8 bytes. *)
Definition naira : string :=
  String (ascii_of_nat 226) (String (ascii_of_nat 130) (String (ascii_of_nat 166) EmptyString)).

(** ** [float] on form values *)

(** The code points of the digit zero of every decimal script (Unicode 14);
    the nine that follow each are its digits one to nine. *)
Definition decimal_zeros : list Z :=
  [
   48; 1632; 1776; 1984; 2406; 2534; 2662; 2790;
   2918; 3046; 3174; 3302; 3430; 3558; 3664; 3792;
   3872; 4160; 4240; 6112; 6160; 6470; 6608; 6784;
   6800; 6992; 7088; 7232; 7248; 42528; 43216; 43264;
   43472; 43504; 43600; 44016; 65296; 66720; 68912; 69734;
   69872; 69942; 70096; 70384; 70736; 70864; 71248; 71360;
   71472; 71904; 72016; 72784; 73040; 73120; 92768; 92864;
   93008; 120782; 120792; 120802; 120812; 120822; 123200; 123632;
   125264; 130032
  ]%Z.

(** [Py_UNICODE_TODECIMAL] *)
Definition to_decimal (cp : Z) : option Z :=
  match find (fun z => (z <=? cp) && (cp <? z + 10))%Z decimal_zeros with
  | Some z => Some (cp - z)%Z
  | None => None
  end.

Definition ascii_of_Z (z : Z) : ascii := ascii_of_nat (Z.to_nat z).

(** What [float] first makes of a character: ASCII stays, other white
    space becomes a space, other decimal digits their ASCII digit, and
    anything else a question mark. *)
Definition to_ascii (cp : Z) : ascii :=
  if (cp <? 128)%Z then ascii_of_Z cp
  else if unicode_space cp then " "%char
  else match to_decimal cp with
       | Some d => ascii_of_Z (48 + d)
       | None => "?"%char
       end.

Fixpoint string_of_list (cs : list ascii) : string :=
  match cs with
  | c :: rest => String c (string_of_list rest)
  | [] => EmptyString
  end.

Definition digit_of (c : ascii) : option Z :=
  let n := byte c in
  if ((48 <=? n) && (n <=? 57))%Z then Some (n - 48)%Z else None.

Definition is_digit (c : ascii) : bool :=
  match digit_of c with
  | Some _ => true
  | None => false
  end.

(** Digit separators: an underscore is allowed between two digits only;
    the text without them, or [None]. *)
Fixpoint remove_underscores (prev : ascii) (s : string) : option string :=
  match s with
  | String c s' =>
      if Ascii.eqb c "_" then
        if is_digit prev then remove_underscores c s' else None
      else if Ascii.eqb prev "_" && negb (is_digit c) then None
      else option_map (String c) (remove_underscores c s')
  | EmptyString => if Ascii.eqb prev "_" then None else Some EmptyString
  end.

(** White space of the C locale. *)
Definition c_space (c : ascii) : bool :=
  let n := byte c in ((9 <=? n) && (n <=? 13) || (n =? 32))%Z.

Fixpoint c_lstrip (s : string) : string :=
  match s with
  | String c s' => if c_space c then c_lstrip s' else s
  | EmptyString => EmptyString
  end.

Fixpoint c_rstrip (s : string) : string :=
  match s with
  | String c s' =>
      match c_rstrip s' with
      | EmptyString => if c_space c then EmptyString else String c EmptyString
      | r => String c r
      end
  | EmptyString => EmptyString
  end.

(** Reads a run of digits: the number read so far, how many digits were
    read, and the rest of the string. *)
Fixpoint read_digits (s : string) (acc : Z) (count : Z) : Z * Z * string :=
  match s with
  | String c s' =>
      match digit_of c with
      | Some d => read_digits s' (10 * acc + d)%Z (count + 1)%Z
      | None => (acc, count, s)
      end
  | EmptyString => (acc, count, s)
  end.

(** An optional sign: is it a minus, and the rest. *)
Definition read_sign (s : string) : bool * string :=
  match s with
  | String "-" s' => (true, s')
  | String "+" s' => (false, s')
  | _ => (false, s)
  end.

Definition lower_char (c : ascii) : ascii :=
  let n := nat_of_ascii c in
  if ((65 <=? n) && (n <=? 90))%nat then ascii_of_nat (n + 32) else c.

(** [s.lower()], on the ASCII letters. *)
Fixpoint lower (s : string) : string :=
  match s with
  | String c s' => String (lower_char c) (lower s')
  | EmptyString => EmptyString
  end.

(** The binary64 number nearest to [n * 10 ^ e], ties to even, for [n >= 0],
    with the sign [neg].  The exponent is first brought into a range
    outside of which the result is an infinity or a zero anyway. *)
Definition of_decimal (neg : bool) (n e : Z) : PrimFloat.float :=
  match n with
  | Zpos p =>
      let e := Z.max (- (Z.log2 n + 400)) (Z.min e 400) in
      if (0 <=? e)%Z then
        SF2Prim (binary_normalize prec emax (if neg then - (n * 10 ^ e) else n * 10 ^ e)%Z
                                  0%Z false)
      else
        SF2Prim (SFdiv prec emax (S754_finite neg p 0%Z)
                       (S754_finite false (Z.to_pos (10 ^ (- e))) 0%Z))
  | _ => if neg then (-0)%float else 0%float
  end.

(** The exponent part of a literal: empty, or [e] or [E], an optional sign
    and at least one digit, up to the end of the text. *)
Definition read_exponent (s : string) : option Z :=
  match s with
  | EmptyString => Some 0%Z
  | String c s1 =>
      if Ascii.eqb (lower_char c) "e" then
        let '(neg, s2) := read_sign s1 in
        match read_digits s2 0%Z 0%Z with
        | (x, count, EmptyString) =>
            if (0 <? count)%Z then Some (if neg then - x else x)%Z else None
        | _ => None
        end
      else None
  end.

(** A whole text as a float literal, or [None]. *)
Definition parse_float (s : string) : option PrimFloat.float :=
  let '(neg, s1) := read_sign s in
  let word := lower s1 in
  if (word =? "inf") || (word =? "infinity") then
    Some (if neg then neg_infinity else infinity)
  else if word =? "nan" then Some nan
  else
    let '(whole, nw, s2) := read_digits s1 0%Z 0%Z in
    let '(all, nf, s3) :=
      match s2 with
      | String "." s' => read_digits s' whole 0%Z
      | _ => (whole, 0%Z, s2)
      end in
    if (0 <? nw + nf)%Z then
      match read_exponent s3 with
      | Some x => Some (of_decimal neg all (x - nf))
      | None => None
      end
    else None.

(** [float(s)] for a string; [None] stands for the [ValueError]. *)
Definition float_str (s : string) : option PrimFloat.float :=
  match remove_underscores Ascii.zero (string_of_list (map (fun c => to_ascii (fst c)) (chars s))) with
  | Some text => parse_float (c_rstrip (c_lstrip text))
  | None => None
  end.

(** [float(v)] for [v = request.form.get(key)]: [None] stands for the
    [TypeError] raised on a missing field and for the [ValueError] raised
    on a string that is not a number. *)
Definition float (v : option string) : option PrimFloat.float :=
  match v with
  | Some s => float_str s
  | None => None
  end.

(** [f"{v}"]: a missing form value is formatted as [None]. *)
Definition fmt (v : option string) : string :=
  match v with
  | Some s => s
  | None => "None"
  end.

(** Truth value of a form value: [None] and the empty string are false. *)
Definition truthy (v : option string) : bool :=
  match v with
  | Some (String _ _) => true
  | _ => false
  end.

(** [str(n)] for a natural number. *)
Definition str (n : N) : string := NilEmpty.string_of_uint (N.to_uint n).

(** ** Database models *)

Record User := {
  id : nat;
  account_type : string;
  username : option string;
  email : string;
  account_number : string
}.

Record Transaction := {
  txn_id : nat;
  user_id : nat;
  txn_type : string;
  amount : PrimFloat.float;
  date : nat;
  description : string
}.

(** The two tables, rows in insertion order. *)
Record DB := {
  users : list User;
  transactions : list Transaction
}.

Definition empty_db : DB := {| users := []; transactions := [] |}.

(** A [Transaction(...)] object before it is committed: the primary key and
    the [date] default are filled in by the insert. *)
Record new_Transaction := {
  new_user_id : nat;
  new_txn_type : string;
  new_amount : PrimFloat.float;
  new_description : string
}.

Definition next_id (ids : list nat) : nat := S (list_max ids).

(** The value read back from a REAL column: a negative zero comes back as
    zero. *)
Definition stored (x : PrimFloat.float) : PrimFloat.float :=
  if PrimFloat.eqb x 0 then 0%float else x.

Definition row_of (txs : list Transaction) (now : nat) (t : new_Transaction) : Transaction :=
  {| txn_id := next_id (map txn_id txs);
     user_id := new_user_id t;
     txn_type := new_txn_type t;
     amount := stored (new_amount t);
     date := now;
     description := new_description t |}.

Fixpoint insert_rows (txs : list Transaction) (now : nat) (added : list new_Transaction)
  : list Transaction :=
  match added with
  | [] => txs
  | t :: rest => insert_rows (txs ++ [row_of txs now t]) now rest
  end.

(** [db.session.add(t1); ...; db.session.commit()]: the added rows are
    inserted together, in the order they were added.  The commit raises
    [IntegrityError] ([None]) and inserts nothing when an amount is a NaN,
    which reaches the NOT NULL column as NULL. *)
Definition commit (db : DB) (now : nat) (added : list new_Transaction) : option DB :=
  if existsb (fun t => is_nan (new_amount t)) added then None
  else Some {| users := users db; transactions := insert_rows (transactions db) now added |}.

Definition same_username (a b : option string) : bool :=
  match a, b with
  | Some x, Some y => x =? y
  | _, _ => false
  end.

(** A [User(...)] object before it is committed. *)
Record new_User := {
  new_account_type : string;
  new_username : option string;
  new_email : string;
  new_account_number : string
}.

(** Would the new row repeat a [unique=True] column of [u]? *)
Definition repeats_unique (n : new_User) (u : User) : bool :=
  (email u =? new_email n)
  || (account_number u =? new_account_number n)
  || same_username (username u) (new_username n).

(** [db.session.add(new_user); db.session.commit()]: the commit raises
    [IntegrityError] ([None]) when a unique column would repeat (a NULL
    username repeats nothing); otherwise the row gets the next primary key. *)
Definition commit_user (db : DB) (n : new_User) : option (DB * User) :=
  if existsb (repeats_unique n) (users db)
  then None
  else
    let new_user := {| id := next_id (map id (users db));
                       account_type := new_account_type n;
                       username := new_username n;
                       email := new_email n;
                       account_number := new_account_number n |} in
    Some ({| users := users db ++ [new_user]; transactions := transactions db |}, new_user).

(** ** Queries *)

(** [User.query.get(int(user_id))] *)
Definition load_user (db : DB) (user_id : nat) : option User :=
  find (fun u => id u =? user_id)%nat (users db).

(** [User.query.filter_by(account_number=target_account).first()]; the column
    is not nullable, so a missing form value matches no row. *)
Definition filter_by_account_number (db : DB) (target_account : option string) : option User :=
  match target_account with
  | Some a => find (fun u => account_number u =? a) (users db)
  | None => None
  end.

Definition filter_by_email (db : DB) (e : string) : option User :=
  find (fun u => email u =? e) (users db).

Definition is_some {A : Type} (o : option A) : bool :=
  match o with
  | Some _ => true
  | None => false
  end.

(** [user.transactions], and [Transaction.query.filter_by(user_id=user.id)] *)
Definition user_transactions (db : DB) (user : User) : list Transaction :=
  filter (fun t => user_id t =? id user)%nat (transactions db).

Fixpoint insert_by_date (t : Transaction) (sorted : list Transaction) : list Transaction :=
  match sorted with
  | [] => [t]
  | x :: rest => if (date t <? date x)%nat then t :: sorted else x :: insert_by_date t rest
  end.

(** [.order_by(Transaction.date)], as a stable sort. *)
Definition order_by_date (txs : list Transaction) : list Transaction :=
  fold_left (fun sorted t => insert_by_date t sorted) txs [].

(** ** Balance derivation *)

(** The builtin [sum]: start at [0], add from left to right, rounding
    each time. *)
Definition sum (xs : list PrimFloat.float) : PrimFloat.float :=
  fold_left PrimFloat.add xs 0%float.

(** [tx.amount if tx.txn_type == "Deposit" else -tx.amount] *)
Definition signed_amount (tx : Transaction) : PrimFloat.float :=
  if txn_type tx =? "Deposit" then amount tx else PrimFloat.opp (amount tx).

(** The balance expression of [withdraw], [transfer] and [betting]. *)
Definition balance (txs : list Transaction) : PrimFloat.float :=
  sum (map signed_amount txs).

Definition compute_balance (db : DB) (user : User) : PrimFloat.float :=
  balance (user_transactions db user).

(** One turn of the loop of [dashboard]. *)
Definition dashboard_step (total_balance : PrimFloat.float) (txn : Transaction)
  : PrimFloat.float :=
  if txn_type txn =? "Deposit"
  then PrimFloat.add total_balance (amount txn)
  else PrimFloat.sub total_balance (amount txn).

(** The loop of [dashboard] that fills [metrics["total_balance"]]. *)
Definition total_balance_loop (txs : list Transaction) : PrimFloat.float :=
  fold_left dashboard_step txs 0%float.

Definition dashboard_total_balance (db : DB) (current_user : User) : PrimFloat.float :=
  total_balance_loop (order_by_date (user_transactions db current_user)).

(** [x > y]: false when either is a NaN. *)
Definition gtb (x y : PrimFloat.float) : bool := PrimFloat.ltb y x.

(** ** Requests and responses *)

Inductive http_method := GET | POST.

Record request := {
  method : http_method;
  form : list (string * string);
  utcnow : nat            (* the clock while the request is handled *)
}.

(** [request.form.get(key)] *)
Definition form_get (req : request) (key : string) : option string :=
  match find (fun kv => fst kv =? key) (form req) with
  | Some kv => Some (snd kv)
  | None => None
  end.

Inductive response :=
| redirect (endpoint : string) (flashed : option (string * string))
| render_template (template : string)
| internal_server_error.      (* an exception no handler catches *)

(** [flash(message, category); return redirect(url_for(endpoint))] *)
Definition flash_redirect (message category endpoint : string) : response :=
  redirect endpoint (Some (message, category)).

(** ** Routes *)

Definition welcome_txn (new_user : User) : new_Transaction :=
  {| new_user_id := id new_user;
     new_txn_type := "Deposit";
     new_amount := 1000%float;
     new_description := "Welcome bonus" |}.

(** [randint] is the value drawn by [random.randint(100000000000, 999999999999)]. *)
Definition signup (req : request) (randint : N) (db : DB) : response * DB :=
  match method req with
  | GET => (render_template "signup.html", db)
  | POST =>
      let account_type :=
        if truthy (form_get req "account_type") then fmt (form_get req "account_type") else "user" in
      let email := form_get req "email" in
      let raw_password := form_get req "password" in
      let confirm_password := form_get req "confirm_password" in
      if negb (truthy email) || negb (truthy raw_password) then
        (flash_redirect "Please provide email and password." "danger" "signup", db)
      else if truthy confirm_password && negb (fmt raw_password =? fmt confirm_password) then
        (flash_redirect "Passwords do not match." "danger" "signup", db)
      else if is_some (filter_by_email db (fmt email)) then
        (flash_redirect "Email already registered!" "danger" "signup", db)
      else
        let account_number := str randint in
        let username :=
          if truthy (form_get req "username") then form_get req "username" else None in
        if (account_type =? "user") || (account_type =? "merchant") then
          match commit_user db {| new_account_type := account_type;
                                  new_username := username;
                                  new_email := fmt email;
                                  new_account_number := account_number |} with
          | None => (internal_server_error, db)
          | Some (db1, new_user) =>
              match commit db1 (utcnow req) [welcome_txn new_user] with
              | Some db2 =>
                  (flash_redirect "Account created successfully! Please log in."
                                  "success" "login", db2)
              | None => (internal_server_error, db1)
              end
          end
        else
          (flash_redirect "Invalid account type!" "danger" "signup", db)
  end.

Definition deposit (current_user : User) (req : request) (db : DB) : response * DB :=
  match method req with
  | GET => (render_template "deposit.html", db)
  | POST =>
      match float (form_get req "amount") with
      | None => (flash_redirect "Invalid amount" "danger" "deposit", db)
      | Some amount =>
          let txn := {| new_user_id := id current_user;
                        new_txn_type := "Deposit";
                        new_amount := amount;
                        new_description := "Manual deposit" |} in
          match commit db (utcnow req) [txn] with
          | Some db' =>
              (flash_redirect "Deposit successful!" "success" "transactions_page", db')
          | None => (internal_server_error, db)
          end
      end
  end.

Definition withdraw (current_user : User) (req : request) (db : DB) : response * DB :=
  match method req with
  | GET => (render_template "withdraw.html", db)
  | POST =>
      match float (form_get req "amount") with
      | None => (flash_redirect "Invalid amount" "danger" "withdraw", db)
      | Some amount =>
          let balance := balance (user_transactions db current_user) in
          if gtb amount balance then
            (flash_redirect "Insufficient funds!" "danger" "withdraw", db)
          else
            let txn := {| new_user_id := id current_user;
                          new_txn_type := "Withdrawal";
                          new_amount := amount;
                          new_description := "Cash withdrawal" |} in
            match commit db (utcnow req) [txn] with
            | Some db' =>
                (flash_redirect "Withdrawal successful!" "success" "transactions_page", db')
            | None => (internal_server_error, db)
            end
      end
  end.

Definition transfer (current_user : User) (req : request) (db : DB) : response * DB :=
  match method req with
  | GET => (render_template "transfer.html", db)
  | POST =>
      let target_account := form_get req "target_account" in
      match float (form_get req "amount") with
      | None => (flash_redirect "Invalid amount" "danger" "transfer", db)
      | Some amount =>
          match filter_by_account_number db target_account with
          | None => (flash_redirect "Recipient account not found!" "danger" "transfer", db)
          | Some recipient =>
              let balance := balance (user_transactions db current_user) in
              if gtb amount balance then
                (flash_redirect "Insufficient funds!" "danger" "transfer", db)
              else
                let sender_txn :=
                  {| new_user_id := id current_user;
                     new_txn_type := "Transfer";
                     new_amount := amount;
                     new_description := "Transfer to " ++ account_number recipient |} in
                let recipient_txn :=
                  {| new_user_id := id recipient;
                     new_txn_type := "Deposit";
                     new_amount := amount;
                     new_description := "Transfer from " ++ account_number current_user |} in
                match commit db (utcnow req) [sender_txn; recipient_txn] with
                | Some db' =>
                    (flash_redirect "Transfer successful!" "success" "transactions_page", db')
                | None => (internal_server_error, db)
                end
          end
      end
  end.

Definition betting (current_user : User) (req : request) (db : DB) : response * DB :=
  match method req with
  | GET => (render_template "betting.html", db)
  | POST =>
      let company := form_get req "company" in
      let account_id := form_get req "account_id" in
      match float (form_get req "amount") with
      | None => (flash_redirect "Invalid amount." "danger" "betting", db)
      | Some amount =>
          let balance := balance (user_transactions db current_user) in
          if gtb amount balance then
            (flash_redirect "Insufficient funds to fund betting account." "danger" "betting", db)
          else
            let txn :=
              {| new_user_id := id current_user;
                 new_txn_type := "Betting Funding";
                 new_amount := amount;
                 new_description :=
                   "Funded " ++ fmt company ++ " account (" ++ fmt account_id ++ ")" |} in
            match commit db (utcnow req) [txn] with
            | Some db' =>
                (flash_redirect ("Successfully funded " ++ fmt company ++ " account!")
                                "success" "transactions_page", db')
            | None => (internal_server_error, db)
            end
      end
  end.

(** [bundle.split(naira)[-1].replace(",", "").strip()] *)
Definition bundle_price (bundle : string) : string :=
  strip (remove_char "," (split_last naira bundle)).

Definition internet (current_user : User) (req : request) (db : DB) : response * DB :=
  match method req with
  | GET => (render_template "internet.html", db)
  | POST =>
      let phone_number := form_get req "phone_number" in
      let bundle := form_get req "bundle" in
      let payment_method := form_get req "payment_method" in
      if negb (truthy phone_number) || negb (truthy bundle) || negb (truthy payment_method) then
        (flash_redirect "All fields are required." "danger" "internet", db)
      else
        match float_str (bundle_price (fmt bundle)) with
        | None => (internal_server_error, db)      (* the ValueError is not caught *)
        | Some amount =>
            let txn :=
              {| new_user_id := id current_user;
                 new_txn_type := "Data Purchase";
                 new_amount := amount;
                 new_description :=
                   "Bought " ++ fmt bundle ++ " for " ++ fmt phone_number
                             ++ " on " ++ fmt payment_method |} in
            match commit db (utcnow req) [txn] with
            | Some db' =>
                (flash_redirect
                   ("Successfully purchased " ++ fmt bundle ++ " for " ++ fmt phone_number)
                   "success" "transactions_page", db')
            | None => (internal_server_error, db)
            end
        end
  end.

(** ** The application as a transition system *)

(** [@login_required]: the route runs for the user the session id loads;
    without one the login manager sends the client to the login view. *)
Definition login_required (route : User -> request -> DB -> response * DB)
           (session_user_id : nat) (req : request) (db : DB) : response * DB :=
  match load_user db session_user_id with
  | Some current_user => route current_user req db
  | None => (flash_redirect "Please log in to access this page." "message" "login", db)
  end.

Inductive operation :=
| op_signup (req : request) (randint : N)
| op_deposit (session_user_id : nat) (req : request)
| op_withdraw (session_user_id : nat) (req : request)
| op_transfer (session_user_id : nat) (req : request)
| op_betting (session_user_id : nat) (req : request)
| op_internet (session_user_id : nat) (req : request).

Definition run (op : operation) (db : DB) : response * DB :=
  match op with
  | op_signup req randint => signup req randint db
  | op_deposit uid req => login_required deposit uid req db
  | op_withdraw uid req => login_required withdraw uid req db
  | op_transfer uid req => login_required transfer uid req db
  | op_betting uid req => login_required betting uid req db
  | op_internet uid req => login_required internet uid req db
  end.

(** The databases the application can get to from the empty one. *)
Inductive reachable : DB -> Prop :=
| reachable_empty : reachable empty_db
| reachable_run op db : reachable db -> reachable (snd (run op db)).

(** ** The error kinds of the specification *)

Inductive failure := InvalidAmount | InsufficientFunds | RecipientNotFound.

(** The kind a flashed message stands for. *)
Definition failure_of (r : response) : option failure :=
  match r with
  | redirect _ (Some (message, _)) =>
      if (message =? "Invalid amount") || (message =? "Invalid amount.") then
        Some InvalidAmount
      else if (message =? "Insufficient funds!")
              || (message =? "Insufficient funds to fund betting account.") then
        Some InsufficientFunds
      else if message =? "Recipient account not found!" then
        Some RecipientNotFound
      else None
  | _ => None
  end.

(** ** The balance as the specification words it *)

Definition is_deposit (t : Transaction) : bool := txn_type t =? "Deposit".

(** Sum of the Deposit amounts minus sum of all other amounts, each sum and
    the difference computed in binary64. *)
Definition inflow_minus_outflow (txs : list Transaction) : PrimFloat.float :=
  PrimFloat.sub (sum (map amount (filter is_deposit txs)))
                (sum (map amount (filter (fun t => negb (is_deposit t)) txs))).

(** The number a finite binary64 value stands for. *)
Definition exact (x : PrimFloat.float) : Q :=
  match Prim2SF x with
  | S754_finite s m e =>
      inject_Z (if s then Z.neg m else Z.pos m) * (2 # 1) ^ e
  | _ => 0
  end.

Fixpoint total_exact (txs : list Transaction) : Q :=
  match txs with
  | [] => 0
  | t :: rest => exact (amount t) + total_exact rest
  end.

(** The same difference in exact arithmetic. *)
Definition inflow_minus_outflow_exact (txs : list Transaction) : Q :=
  total_exact (filter is_deposit txs)
  - total_exact (filter (fun t => negb (is_deposit t)) txs).

(** Deposits minus everything else over a list of rows, for any way
    [value] of reading an amount as a number. *)
Fixpoint signed_total (value : PrimFloat.float -> Q) (txs : list Transaction) : Q :=
  match txs with
  | [] => 0
  | t :: rest =>
      (if is_deposit t then value (amount t) else - value (amount t))
      + signed_total value rest
  end.

(** What a route may do to the tables on behalf of [user]: no user row
    changes, and at most one transaction row is appended, owned by [user]. *)
Definition appends_at_most_one_for (user : User) (db db' : DB) : Prop :=
  users db' = users db
  /\ (transactions db' = transactions db
      \/ exists t, transactions db' = (transactions db ++ [t])%list /\ user_id t = id user).

(** [t] is a row of [owner] with the given kind and amount. *)
Definition is_row (t : Transaction) (owner : User) (kind : string) (a : PrimFloat.float)
  : Prop :=
  user_id t = id owner /\ txn_type t = kind /\ amount t = a.

(** The amount an operation asks to move, when it parses. *)
Definition requested_amount (op : operation) : option PrimFloat.float :=
  match op with
  | op_signup _ _ => None
  | op_deposit _ req | op_withdraw _ req | op_transfer _ req | op_betting _ req =>
      float (form_get req "amount")
  | op_internet _ req => float_str (bundle_price (fmt (form_get req "bundle")))
  end.

Definition amounts_positive (db : DB) : Prop :=
  Forall (fun t => PrimFloat.ltb 0 (amount t) = true) (transactions db).

(** Every transaction row belongs to a user row. *)
Definition foreign_keys_ok (db : DB) : bool :=
  forallb (fun t => existsb (fun u => id u =? user_id t)%nat (users db)) (transactions db).

Fixpoint distinct (xs : list string) : bool :=
  match xs with
  | [] => true
  | x :: rest => negb (existsb (String.eqb x) rest) && distinct rest
  end.

(** The [unique=True] constraint on [User.account_number]. *)
Definition account_numbers_unique (db : DB) : bool :=
  distinct (map account_number (users db)).

(** ** Upload helpers *)

Definition ALLOWED_EXTENSIONS : list string := ["png"; "jpg"; "jpeg"; "gif"].

(** [c in s] for a character. *)
Fixpoint contains_char (c : ascii) (s : string) : bool :=
  match s with
  | String x s' => Ascii.eqb x c || contains_char c s'
  | EmptyString => false
  end.

(** [s.rsplit(sep, 1)] for a one-character [sep]: the text before and the
    text after the last [sep], or [s] alone when [sep] does not occur. *)
Fixpoint rsplit1 (sep : ascii) (s : string) : list string :=
  match s with
  | String x s' =>
      match rsplit1 sep s' with
      | [before; rest] => [String x before; rest]
      | _ => if Ascii.eqb x sep then [EmptyString; s'] else [s]
      end
  | EmptyString => [EmptyString]
  end.

Definition allowed_file (filename : string) : bool :=
  contains_char "." filename
  && match nth_error (rsplit1 "." filename) 1 with
     | Some ext => existsb (String.eqb (lower ext)) ALLOWED_EXTENSIONS
     | None => false
     end.

(** [needle in s] for strings. *)
Fixpoint contains (needle s : string) : bool :=
  prefix needle s
  || match s with
     | String _ s' => contains needle s'
     | EmptyString => false
     end.

(** [s.split(sep, 1)] for a one-character [sep]. *)
Fixpoint split1 (sep : ascii) (s : string) : list string :=
  match s with
  | String x s' =>
      if Ascii.eqb x sep then [EmptyString; s']
      else match split1 sep s' with
           | [before; rest] => [String x before; rest]
           | _ => [s]
           end
  | EmptyString => [EmptyString]
  end.

Section Selfie.

(** [base64.b64decode]: the decoded bytes, or [None] when it raises. *)
Variable b64decode : string -> option string.

(** [uuid_hex] is [uuid.uuid4().hex]; [write_ok] tells whether the file
    could be written.  The result is the path relative to [static/]. *)
Definition save_base64_selfie_get_static_path
           (data_url : option string) (uuid_hex : string) (write_ok : bool) : option string :=
  if negb (truthy data_url) then None
  else if negb (prefix "data:image" (fmt data_url)) then None
  else
    match split1 "," (fmt data_url) with
    | [header; encoded] =>
        let ext :=
          if contains "image/png" header then "png"
          else if contains "image/jpeg" header || contains "image/jpg" header then "jpg"
          else "png" in
        match b64decode encoded with
        | None => None
        | Some img_bytes =>
            let filename := "selfie_" ++ uuid_hex ++ "." ++ ext in
            if write_ok then Some ("uploads/selfies/" ++ filename) else None
        end
    | _ => None
    end.

End Selfie.

(** ** Read-only pages *)

Record metrics := {
  total_balance : PrimFloat.float;
  customers_count : option nat;
  transactions_count : nat;
  loans_total : Z;
  savings_total : Z
}.

(** [transactions[-5:] if transactions else []] *)
Definition last5 (txs : list Transaction) : list Transaction :=
  skipn (List.length txs - 5) txs.

(** What [dashboard] hands to its template: the metrics and the rows shown. *)
Definition dashboard (current_user : User) (db : DB) : metrics * list Transaction :=
  let transactions := order_by_date (user_transactions db current_user) in
  ({| total_balance := total_balance_loop transactions;
      customers_count := if account_type current_user =? "merchant" then Some 50%nat else None;
      transactions_count := List.length transactions;
      loans_total := 8000%Z;
      savings_total := 3000%Z |},
   last5 transactions).

Fixpoint insert_by_date_desc (t : Transaction) (sorted : list Transaction) : list Transaction :=
  match sorted with
  | [] => [t]
  | x :: rest => if (date x <? date t)%nat then t :: sorted else x :: insert_by_date_desc t rest
  end.

(** [.order_by(Transaction.date.desc())], as a stable sort. *)
Definition order_by_date_desc (txs : list Transaction) : list Transaction :=
  fold_left (fun sorted t => insert_by_date_desc t sorted) txs [].

(** [a] is not later than [b]. *)
Definition by_date (a b : Transaction) : Prop := (date a <= date b)%nat.

(** The rows [transactions_page] hands to its template. *)
Definition transactions_page (current_user : User) (db : DB) : list Transaction :=
  order_by_date_desc (user_transactions db current_user).

(** ** Profile *)

(** [current_user.username = new_username; db.session.commit()], on the row
    with the primary key of [current_user]. *)
Definition set_username (db : DB) (current_user : User) (new_username : option string) : DB :=
  {| users := map (fun u => if (id u =? id current_user)%nat
                            then {| id := id u;
                                    account_type := account_type u;
                                    username := new_username;
                                    email := email u;
                                    account_number := account_number u |}
                            else u) (users db);
     transactions := transactions db |}.

(** [User.query.filter(User.username == new_username,
                       User.id != current_user.id).first()] *)
Definition username_taken (db : DB) (current_user : User) (new_username : option string)
  : option User :=
  find (fun u => same_username (username u) new_username
                 && negb (id u =? id current_user)%nat) (users db).

(** The profile route, on the columns of the model: of the fields it
    writes, only [username] is one. *)
Definition profile (current_user : User) (req : request) (db : DB) : response * DB :=
  match method req with
  | GET => (render_template "profile.html", db)
  | POST =>
      let new_username := form_get req "username" in
      if truthy new_username then
        if is_some (username_taken db current_user new_username) then
          (flash_redirect "Username already taken. Choose another." "danger" "profile", db)
        else
          (flash_redirect "Profile updated successfully!" "success" "profile",
           set_username db current_user new_username)
      else
        (flash_redirect "Profile updated successfully!" "success" "profile", db)
  end.

(** ** Integrity constraints *)

(** No element of [xs] is the [same] as a later one. *)
Fixpoint distinct_by {A : Type} (same : A -> A -> bool) (xs : list A) : bool :=
  match xs with
  | [] => true
  | x :: rest => negb (existsb (same x) rest) && distinct_by same rest
  end.

(** Primary keys and [unique=True] columns of the two tables; NULL user
    names repeat nothing. *)
Definition user_ids_unique (db : DB) : bool := distinct_by Nat.eqb (map id (users db)).

Definition txn_ids_unique (db : DB) : bool :=
  distinct_by Nat.eqb (map txn_id (transactions db)).

Definition emails_unique (db : DB) : bool := distinct_by String.eqb (map email (users db)).

Definition usernames_unique (db : DB) : bool :=
  distinct_by same_username (map username (users db)).

(** All four constraints together. *)
Definition keys_ok (db : DB) : Prop :=
  user_ids_unique db = true /\ txn_ids_unique db = true
  /\ emails_unique db = true /\ usernames_unique db = true.

(** The database after a sequence of requests. *)
Definition run_all (ops : list operation) (db : DB) : DB :=
  fold_left (fun d op => snd (run op d)) ops db.

(** The seed row of [user] is in the table. *)
Definition has_welcome_bonus (db : DB) (user : User) : Prop :=
  exists t, In t (transactions db)
            /\ is_row t user "Deposit" 1000%float /\ description t = "Welcome bonus".

(** ** A small ledger to evaluate the routes on *)

Definition post (now : nat) (fields : list (string * string)) : request :=
  {| method := POST; form := fields; utcnow := now |}.

Definition alice : User :=
  {| id := 1; account_type := "user"; username := None;
     email := "alice@example.com"; account_number := "100000000001" |}.

Definition bob : User :=
  {| id := 2; account_type := "merchant"; username := Some "bob";
     email := "bob@example.com"; account_number := "100000000002" |}.

(** Alice and Bob have signed up; each holds the welcome bonus only. *)
Definition two_accounts : DB :=
  snd (run (op_signup (post 2 [("account_type", "merchant"); ("email", "bob@example.com");
                               ("password", "hunter2"); ("username", "bob")])
                      100000000002)
      (snd (run (op_signup (post 1 [("email", "alice@example.com"); ("password", "secret")])
                           100000000001)
                empty_db))).

(** Alice after five deposits, made at times 3 to 7. *)
Definition busy_ledger : DB :=
  run_all [op_deposit 1 (post 3 [("amount", "10")]);
           op_deposit 1 (post 4 [("amount", "20")]);
           op_deposit 1 (post 5 [("amount", "30")]);
           op_deposit 1 (post 6 [("amount", "40")]);
           op_deposit 1 (post 7 [("amount", "50")])] two_accounts.

(** Alice after two withdrawals of 0.2. *)
Definition two_withdrawals : DB :=
  run_all [op_withdraw 1 (post 3 [("amount", "0.2")]);
           op_withdraw 1 (post 4 [("amount", "0.2")])] two_accounts.

(** Alice after a deposit of 0.1: she holds 1000.1. *)
Definition odd_cents : DB :=
  run_all [op_deposit 1 (post 3 [("amount", "0.1")])] two_accounts.

(** Alice after a deposit of 100000000000000000. *)
Definition large_ledger : DB :=
  run_all [op_deposit 1 (post 3 [("amount", "100000000000000000")])] two_accounts.

Definition carol_signup : request :=
  post 3 [("email", "carol@example.com"); ("password", "pass"); ("confirm_password", "pass")].

Definition transfer_request (target_account amount : string) : request :=
  post 3 [("target_account", target_account); ("amount", amount)].

Definition data_request : request :=
  post 3 [("phone_number", "08030000000");
          ("bundle", "10GB - " ++ naira ++ "5,000");
          ("payment_method", "wallet")].


(** * Properties *)

#[local] Open Scope list_scope.

(** ** Binary64 facts *)

Lemma SFcompare_refl (x : spec_float) :
  x <> S754_nan -> SFcompare x x = Some Eq.
Proof.
  destruct x as [s|s| |s m e]; simpl; intro N; try reflexivity.
  - destruct s; reflexivity.
  - contradiction.
  - rewrite Z.compare_refl, Pos.compare_cont_refl. destruct s; reflexivity.
Qed.

Lemma positive_not_nan (a : PrimFloat.float) :
  PrimFloat.ltb 0 a = true -> is_nan a = false.
Proof.
  unfold is_nan. rewrite ltb_spec, eqb_spec. unfold SFltb, SFeqb.
  destruct (Prim2SF a) eqn:E; intro H.
  - reflexivity.
  - rewrite SFcompare_refl by discriminate. reflexivity.
  - vm_compute in H. discriminate.
  - rewrite SFcompare_refl by discriminate. reflexivity.
Qed.

Lemma negative_not_nan (a : PrimFloat.float) :
  PrimFloat.ltb a 0 = true -> is_nan a = false.
Proof.
  unfold is_nan. rewrite ltb_spec, eqb_spec. unfold SFltb, SFeqb.
  destruct (Prim2SF a) eqn:E; intro H.
  - reflexivity.
  - rewrite SFcompare_refl by discriminate. reflexivity.
  - vm_compute in H. discriminate.
  - rewrite SFcompare_refl by discriminate. reflexivity.
Qed.

Lemma positive_stored (a : PrimFloat.float) :
  PrimFloat.ltb 0 a = true -> stored a = a.
Proof.
  unfold stored. rewrite ltb_spec, eqb_spec. unfold SFltb, SFeqb.
  replace (Prim2SF 0) with (S754_zero false) by reflexivity.
  destruct (Prim2SF a) as [s|s| |s m e]; simpl; intro H; try discriminate.
  - destruct s; reflexivity.
  - destruct s; reflexivity.
Qed.

Lemma negative_stored (a : PrimFloat.float) :
  PrimFloat.ltb a 0 = true -> stored a = a.
Proof.
  unfold stored. rewrite ltb_spec, eqb_spec. unfold SFltb, SFeqb.
  replace (Prim2SF 0) with (S754_zero false) by reflexivity.
  destruct (Prim2SF a) as [s|s| |s m e]; simpl; intro H; try discriminate.
  - destruct s; reflexivity.
  - destruct s; reflexivity.
Qed.

(** [x - y] is [x + (-y)], bit for bit. *)
Lemma sub_add_opp (x y : PrimFloat.float) :
  PrimFloat.sub x y = PrimFloat.add x (PrimFloat.opp y).
Proof.
  apply Prim2SF_inj. rewrite sub_spec, add_spec, opp_spec.
  unfold SF64sub, SF64add.
  destruct (Prim2SF x) as [sx|sx| |sx mx ex], (Prim2SF y) as [sy|sy| |sy my ey];
    try reflexivity; simpl;
    try (destruct sx, sy; reflexivity).
Qed.

(** A negative amount is never above a balance that is not negative. *)
Lemma negative_passes_funds_check (a b : PrimFloat.float) :
  PrimFloat.ltb a 0 = true -> PrimFloat.leb 0 b = true -> gtb a b = false.
Proof.
  unfold gtb. rewrite !ltb_spec, leb_spec. unfold SFltb, SFleb.
  replace (Prim2SF 0) with (S754_zero false) by reflexivity.
  destruct (Prim2SF a) as [sa|sa| |sa ma ea], (Prim2SF b) as [sb|sb| |sb mb eb];
    simpl; intros A B; try discriminate; try reflexivity;
    try (destruct sa; try discriminate; destruct sb; try discriminate; reflexivity).
Qed.

(** ** Commits *)

Lemma commit_some (db db' : DB) (now : nat) (added : list new_Transaction) :
  commit db now added = Some db' ->
  users db' = users db
  /\ transactions db' = insert_rows (transactions db) now added
  /\ existsb (fun t => is_nan (new_amount t)) added = false.
Proof.
  unfold commit. destruct (existsb _ added); [discriminate|].
  intros [= <-]. repeat split.
Qed.

Lemma commit_none (db : DB) (now : nat) (added : list new_Transaction) :
  commit db now added = None ->
  existsb (fun t => is_nan (new_amount t)) added = true.
Proof.
  unfold commit. destruct (existsb _ added); [reflexivity|discriminate].
Qed.

Lemma commit_storable (db : DB) (now : nat) (added : list new_Transaction) :
  existsb (fun t => is_nan (new_amount t)) added = false ->
  commit db now added
  = Some {| users := users db; transactions := insert_rows (transactions db) now added |}.
Proof.
  unfold commit. intros ->. reflexivity.
Qed.

Lemma commit_welcome (db : DB) (now : nat) (user : User) :
  commit db now [welcome_txn user]
  = Some {| users := users db;
            transactions := transactions db ++ [row_of (transactions db) now (welcome_txn user)] |}.
Proof. reflexivity. Qed.

Lemma transactions_commit_one (db db' : DB) (now : nat) (t : new_Transaction) :
  commit db now [t] = Some db' ->
  transactions db' = transactions db ++ [row_of (transactions db) now t].
Proof.
  intro C. apply commit_some in C. destruct C as (_ & T & _). exact T.
Qed.

Lemma transactions_commit_two (db db' : DB) (now : nat) (t1 t2 : new_Transaction) :
  commit db now [t1; t2] = Some db' ->
  transactions db' = transactions db ++ [row_of (transactions db) now t1;
                                         row_of (transactions db ++ [row_of (transactions db) now t1])
                                                now t2].
Proof.
  intro C. apply commit_some in C. destruct C as (_ & T & _).
  rewrite T. simpl. rewrite <- app_assoc. reflexivity.
Qed.

Lemma user_transactions_snoc (db db' : DB) (t : Transaction) (user : User) :
  transactions db' = transactions db ++ [t] ->
  user_transactions db' user
  = user_transactions db user ++ (if (user_id t =? id user)%nat then [t] else []).
Proof.
  intro E. unfold user_transactions. rewrite E, filter_app. reflexivity.
Qed.

(** ** Proof tools *)

(** Splits on the tests of a money route. *)
Ltac route_cases :=
  repeat match goal with
         | |- context [match method ?r with _ => _ end] => destruct (method r) eqn:?
         | |- context [match float ?v with _ => _ end] => destruct (float v) eqn:?
         | |- context [match float_str ?v with _ => _ end] => destruct (float_str v) eqn:?
         | |- context [match filter_by_account_number ?d ?v with _ => _ end] =>
             destruct (filter_by_account_number d v) eqn:?
         | |- context [if gtb ?x ?y then _ else _] => destruct (gtb x y) eqn:?
         | |- context [if negb (truthy ?a) || negb (truthy ?b) || negb (truthy ?c) then _ else _] =>
             destruct (negb (truthy a) || negb (truthy b) || negb (truthy c)) eqn:?
         | |- context [match commit ?d ?n ?a with _ => _ end] => destruct (commit d n a) eqn:?
         end.

(** Splits on every test a route makes. *)
Ltac branch_cases :=
  repeat match goal with
         | |- context [commit ?d ?n [welcome_txn ?u]] => rewrite (commit_welcome d n u)
         | |- context [match load_user ?d ?u with _ => _ end] => destruct (load_user d u) eqn:?
         | |- context [match commit_user ?d ?n with _ => _ end] =>
             destruct (commit_user d n) as [[? ?]|] eqn:?
         | |- context [if ?c then _ else _] => destruct c eqn:?
         | _ => route_cases
         end.

(** A commit of transaction rows leaves the user table as it is. *)
Ltac keep_users :=
  try match goal with
      | H : commit _ _ _ = Some _ |- _ => apply commit_some in H; destruct H as (-> & _)
      end.

(** ** Balance derivation *)

Lemma balance_snoc (txs : list Transaction) (t : Transaction) :
  balance (txs ++ [t]) = PrimFloat.add (balance txs) (signed_amount t).
Proof.
  unfold balance, sum. rewrite map_app, fold_left_app. reflexivity.
Qed.

Lemma insert_by_date_perm (t : Transaction) (sorted : list Transaction) :
  Permutation (insert_by_date t sorted) (t :: sorted).
Proof.
  induction sorted as [|x rest IH]; simpl.
  - reflexivity.
  - destruct (date t <? date x)%nat.
    + reflexivity.
    + rewrite IH. apply perm_swap.
Qed.

Lemma order_by_date_perm (txs : list Transaction) :
  Permutation (order_by_date txs) txs.
Proof.
  unfold order_by_date.
  assert (G : forall acc, Permutation (fold_left (fun sorted t => insert_by_date t sorted) txs acc)
                                      (acc ++ txs)).
  { induction txs as [|t txs IH]; intro acc; simpl.
    - rewrite app_nil_r. reflexivity.
    - rewrite IH, insert_by_date_perm. apply Permutation_middle. }
  apply (G []).
Qed.

Lemma insert_by_date_sorted (t : Transaction) (sorted : list Transaction) :
  StronglySorted by_date sorted -> StronglySorted by_date (insert_by_date t sorted).
Proof.
  induction 1 as [|x rest S IH F]; simpl.
  - repeat constructor.
  - destruct (date t <? date x)%nat eqn:L.
    + apply Nat.ltb_lt in L. constructor; [constructor; assumption|].
      constructor; [unfold by_date; lia|].
      rewrite Forall_forall in *. intros y I. specialize (F y I). unfold by_date in *. lia.
    + apply Nat.ltb_ge in L. constructor; [exact IH|].
      rewrite Forall_forall in *. intros y I.
      apply (Permutation_in _ (insert_by_date_perm t rest)) in I.
      destruct I as [<-|I]; [exact L|apply F; exact I].
Qed.

Lemma order_by_date_sorted (txs : list Transaction) :
  StronglySorted by_date (order_by_date txs).
Proof.
  unfold order_by_date.
  assert (G : forall acc, StronglySorted by_date acc ->
                          StronglySorted by_date
                            (fold_left (fun sorted t => insert_by_date t sorted) txs acc)).
  { induction txs as [|t txs IH]; intros acc S; simpl; [exact S|].
    apply IH. apply insert_by_date_sorted. exact S. }
  apply G. constructor.
Qed.

(** C1, the case that fails as stated.  Alice holds the welcome bonus of
    1000 and withdraws 0.2 twice.  The program derives 999.5999999999999,
    by the [sum] expression and by the dashboard loop alike; the sum of her
    Deposit amounts minus the sum of her other amounts is 999.6 when
    computed in binary64, and in exact arithmetic a number that differs
    from what the program derives. *)
Lemma balance_differs_from_inflow_minus_outflow :
  compute_balance two_withdrawals alice = 999.5999999999999%float
  /\ dashboard_total_balance two_withdrawals alice = 999.5999999999999%float
  /\ inflow_minus_outflow (user_transactions two_withdrawals alice) = 999.6%float
  /\ PrimFloat.eqb (compute_balance two_withdrawals alice)
                   (inflow_minus_outflow (user_transactions two_withdrawals alice)) = false
  /\ ~ exact (compute_balance two_withdrawals alice)
       == inflow_minus_outflow_exact (user_transactions two_withdrawals alice).
Proof.
  repeat split; try (vm_compute; reflexivity).
  vm_compute. discriminate.
Qed.

(** C1, amended.  The balance the program derives for an account is what
    adding its rows one by one gives, in binary64 and in the order read: 0
    for an empty table; a new Deposit row of the account adds its amount, a
    new row of another kind adds the negated amount, a new row of another
    account changes nothing.  The dashboard does the same over the rows of
    the account sorted by date, subtracting where the [sum] expression adds
    the negation, which is the same number.  (Each addition rounds, so the
    result need not be the sum of the Deposits minus the sum of the
    others.) *)
Theorem derived_balance_accumulates_rows (db : DB) (account : User) :
  compute_balance {| users := users db; transactions := [] |} account = 0%float
  /\ (forall t : Transaction,
         compute_balance {| users := users db; transactions := transactions db ++ [t] |} account
         = if (user_id t =? id account)%nat
           then if txn_type t =? "Deposit"
                then PrimFloat.add (compute_balance db account) (amount t)
                else PrimFloat.add (compute_balance db account) (PrimFloat.opp (amount t))
           else compute_balance db account)
  /\ exists rows,
      Permutation rows (filter (fun t => user_id t =? id account)%nat (transactions db))
      /\ StronglySorted by_date rows
      /\ dashboard_total_balance db account
         = fold_left (fun total t =>
                        if txn_type t =? "Deposit"
                        then PrimFloat.add total (amount t)
                        else PrimFloat.add total (PrimFloat.opp (amount t))) rows 0%float.
Proof.
  split; [reflexivity|]. split.
  - intro t. unfold compute_balance, user_transactions. simpl transactions.
    rewrite filter_app. simpl.
    destruct (user_id t =? id account)%nat.
    + rewrite balance_snoc. unfold signed_amount.
      destruct (txn_type t =? "Deposit"); reflexivity.
    + rewrite app_nil_r. reflexivity.
  - exists (order_by_date (user_transactions db account)).
    split; [apply order_by_date_perm|]. split; [apply order_by_date_sorted|].
    unfold dashboard_total_balance, total_balance_loop.
    generalize (order_by_date (user_transactions db account)) as rows.
    generalize 0%float as start.
    intros start rows. revert start.
    induction rows as [|t rows IH]; intro start; simpl; [reflexivity|].
    rewrite IH. unfold dashboard_step.
    destruct (txn_type t =? "Deposit"); [reflexivity|].
    rewrite sub_add_opp. reflexivity.
Qed.

Lemma SFcompare_antisym (x y : spec_float) :
  SFcompare y x = option_map CompOpp (SFcompare x y).
Proof.
  destruct x as [sx|sx| |sx mx ex], y as [sy|sy| |sy my ey]; simpl;
    try reflexivity; try (destruct sx; reflexivity); try (destruct sy; reflexivity);
    try (destruct sx, sy; reflexivity).
  assert (P : Pos.compare_cont Eq my mx = CompOpp (Pos.compare_cont Eq mx my))
    by (rewrite (Pos.compare_cont_antisym mx my Eq); reflexivity).
  rewrite (Z.compare_antisym ex ey), P.
  destruct sx, sy, (ex ?= ey)%Z; simpl; try reflexivity;
    destruct (Pos.compare_cont Eq mx my); reflexivity.
Qed.

(** An amount that is at most the balance passes the funds check and can
    be stored. *)
Lemma leb_passes_funds_check (a b : PrimFloat.float) :
  PrimFloat.leb a b = true -> gtb a b = false /\ is_nan a = false.
Proof.
  unfold gtb, is_nan. rewrite ltb_spec, leb_spec, eqb_spec. unfold SFltb, SFleb, SFeqb.
  rewrite (SFcompare_antisym (Prim2SF a) (Prim2SF b)).
  intro H. split.
  - destruct (SFcompare (Prim2SF a) (Prim2SF b)) as [[| |]|]; simpl; try reflexivity; discriminate.
  - destruct (Prim2SF a) eqn:E; try (rewrite SFcompare_refl by discriminate; reflexivity).
Qed.

(** ** Funds checks *)

Lemma withdraw_checks_funds (current_user : User) (req : request) (db : DB)
      (a : PrimFloat.float) :
  method req = POST ->
  float (form_get req "amount") = Some a ->
  gtb a (compute_balance db current_user) = true ->
  withdraw current_user req db = (flash_redirect "Insufficient funds!" "danger" "withdraw", db).
Proof.
  intros M F G. unfold withdraw, compute_balance in *.
  rewrite M, F. cbv zeta. rewrite G. reflexivity.
Qed.

Lemma betting_checks_funds (current_user : User) (req : request) (db : DB)
      (a : PrimFloat.float) :
  method req = POST ->
  float (form_get req "amount") = Some a ->
  gtb a (compute_balance db current_user) = true ->
  betting current_user req db
  = (flash_redirect "Insufficient funds to fund betting account." "danger" "betting", db).
Proof.
  intros M F G. unfold betting, compute_balance in *.
  rewrite M, F. cbv zeta. rewrite G. reflexivity.
Qed.

(** C2, at the request that breaks it.  Alice holds 1000.  The data purchase
    route reads a price of 5000 from the bundle text and, having no funds
    check, commits a "Data Purchase" row of 5000: the request succeeds and
    the derived balance becomes -4000.  ([withdraw] and [betting] refuse such
    an amount, see [withdraw_checks_funds] and [betting_checks_funds].) *)
Theorem internet_commits_without_funds_check :
  compute_balance two_accounts alice = 1000%float
  /\ requested_amount (op_internet 1 data_request) = Some 5000%float
  /\ failure_of (fst (internet alice data_request two_accounts)) = None
  /\ (exists t,
         transactions (snd (internet alice data_request two_accounts))
         = transactions two_accounts ++ [t]
         /\ user_id t = id alice /\ txn_type t = "Data Purchase" /\ amount t = 5000%float)
  /\ compute_balance (snd (internet alice data_request two_accounts)) alice = (-4000)%float.
Proof.
  split; [vm_compute; reflexivity|].
  split; [vm_compute; reflexivity|].
  split; [vm_compute; reflexivity|].
  split; [|vm_compute; reflexivity].
  eexists. split; [vm_compute; reflexivity|]. repeat split.
Qed.

(** ** Transfers *)

Lemma compute_balance_extended (db db' : DB) (added : list Transaction) (user : User) :
  transactions db' = transactions db ++ added ->
  compute_balance db' user
  = fold_left PrimFloat.add
              (map signed_amount (filter (fun t => user_id t =? id user)%nat added))
              (compute_balance db user).
Proof.
  intro E. unfold compute_balance, user_transactions, balance, sum.
  rewrite E, filter_app, map_app, fold_left_app. reflexivity.
Qed.

Lemma transfer_post (sender recipient : User) (req : request) (db : DB)
      (a : PrimFloat.float) :
  method req = POST ->
  float (form_get req "amount") = Some a ->
  filter_by_account_number db (form_get req "target_account") = Some recipient ->
  gtb a (compute_balance db sender) = false ->
  is_nan a = false ->
  transfer sender req db
  = (flash_redirect "Transfer successful!" "success" "transactions_page",
     {| users := users db;
        transactions :=
          insert_rows (transactions db) (utcnow req)
            [{| new_user_id := id sender; new_txn_type := "Transfer"; new_amount := a;
                new_description := "Transfer to " ++ account_number recipient |};
             {| new_user_id := id recipient; new_txn_type := "Deposit"; new_amount := a;
                new_description := "Transfer from " ++ account_number sender |}] |}).
Proof.
  intros M F R G N. unfold transfer, compute_balance in *.
  rewrite M, F, R. cbv zeta. rewrite G.
  rewrite commit_storable; [reflexivity|]. simpl. rewrite N. reflexivity.
Qed.

Lemma transfer_outcome (sender recipient : User) (req : request) (db : DB)
      (a : PrimFloat.float) :
  method req = POST ->
  float (form_get req "amount") = Some a ->
  filter_by_account_number db (form_get req "target_account") = Some recipient ->
  gtb a (compute_balance db sender) = false ->
  is_nan a = false ->
  fst (transfer sender req db)
  = flash_redirect "Transfer successful!" "success" "transactions_page"
  /\ exists s r,
      transactions (snd (transfer sender req db)) = transactions db ++ [s; r]
      /\ is_row s sender "Transfer" (stored a) /\ is_row r recipient "Deposit" (stored a).
Proof.
  intros M F R G N. rewrite (transfer_post sender recipient req db a M F R G N).
  split; [reflexivity|]. simpl snd. simpl transactions.
  do 2 eexists. split; [rewrite <- app_assoc; reflexivity|]. split; repeat split.
Qed.

(** A transfer commits both of its rows or none: never one. *)
Lemma transfer_two_rows_or_none (sender : User) (req : request) (db : DB) :
  transactions (snd (transfer sender req db)) = transactions db
  \/ exists s r, transactions (snd (transfer sender req db)) = transactions db ++ [s; r].
Proof.
  unfold transfer. route_cases; simpl snd; auto.
  right. erewrite transactions_commit_two by eassumption. eauto.
Qed.

(** C3, the cases that fail as stated.  A transfer of 250 from Alice, who
    holds 1000, to her own account number meets every premise and commits
    the two rows, yet her balance is still 1000 and not 750.  And between
    two accounts the amount moves in binary64 only: when Alice holds
    100000000000000992 and sends 1 to Bob, Bob's balance goes from 1000 to
    1001 while hers is still 100000000000000992. *)
Lemma self_transfer_keeps_sender_balance :
  let req := transfer_request "100000000001" "250" in
  let small := transfer_request "100000000002" "1" in
  (float (form_get req "amount") = Some 250%float
   /\ PrimFloat.ltb 0 250 = true
   /\ PrimFloat.leb 250 (compute_balance two_accounts alice) = true
   /\ filter_by_account_number two_accounts (form_get req "target_account") = Some alice
   /\ fst (transfer alice req two_accounts)
      = flash_redirect "Transfer successful!" "success" "transactions_page"
   /\ compute_balance two_accounts alice = 1000%float
   /\ compute_balance (snd (transfer alice req two_accounts)) alice = 1000%float
   /\ PrimFloat.sub (compute_balance two_accounts alice) 250 = 750%float)
  /\ (float (form_get small "amount") = Some 1%float
      /\ filter_by_account_number large_ledger (form_get small "target_account") = Some bob
      /\ compute_balance large_ledger alice = 100000000000000992%float
      /\ compute_balance large_ledger bob = 1000%float
      /\ fst (transfer alice small large_ledger)
         = flash_redirect "Transfer successful!" "success" "transactions_page"
      /\ compute_balance (snd (transfer alice small large_ledger)) alice
         = 100000000000000992%float
      /\ compute_balance (snd (transfer alice small large_ledger)) bob = 1001%float).
Proof.
  cbv zeta. repeat split; vm_compute; reflexivity.
Qed.

(** C3, amended.  A transfer of a positive amount from a sender whose
    derived balance is at least the amount to an existing recipient other
    than the sender commits exactly two rows together, a Transfer row of
    that amount on the sender and a Deposit row of that amount on the
    recipient; afterwards the sender's derived balance is the binary64
    difference of the old balance and the amount, and the recipient's the
    binary64 sum of the old balance and the amount. *)
Theorem transfer_moves_amount_between_accounts
        (sender recipient : User) (req : request) (db : DB) (a : PrimFloat.float) :
  method req = POST ->
  float (form_get req "amount") = Some a ->
  PrimFloat.ltb 0 a = true ->
  PrimFloat.leb a (compute_balance db sender) = true ->
  filter_by_account_number db (form_get req "target_account") = Some recipient ->
  id recipient <> id sender ->
  fst (transfer sender req db)
  = flash_redirect "Transfer successful!" "success" "transactions_page"
  /\ (exists s r,
         transactions (snd (transfer sender req db)) = transactions db ++ [s; r]
         /\ is_row s sender "Transfer" a /\ is_row r recipient "Deposit" a)
  /\ compute_balance (snd (transfer sender req db)) sender
     = PrimFloat.sub (compute_balance db sender) a
  /\ compute_balance (snd (transfer sender req db)) recipient
     = PrimFloat.add (compute_balance db recipient) a.
Proof.
  intros M F P L R D.
  destruct (leb_passes_funds_check _ _ L) as [G N].
  destruct (transfer_outcome sender recipient req db a M F R G N)
    as [Ok (s & r & E & (Su & St & Sa) & (Ru & Rt & Ra))].
  rewrite (positive_stored a P) in Sa, Ra.
  split; [exact Ok|]. split; [exists s, r; repeat split; assumption|].
  assert (Ds : (id recipient =? id sender)%nat = false) by (apply Nat.eqb_neq; exact D).
  assert (Dr : (id sender =? id recipient)%nat = false)
    by (apply Nat.eqb_neq; intro; apply D; congruence).
  split.
  - rewrite (compute_balance_extended _ _ _ sender E). simpl.
    rewrite Su, Ru, Nat.eqb_refl, Ds. simpl.
    unfold signed_amount. rewrite St, Sa. simpl. symmetry. apply sub_add_opp.
  - rewrite (compute_balance_extended _ _ _ recipient E). simpl.
    rewrite Su, Ru, Nat.eqb_refl, Dr. simpl.
    unfold signed_amount. rewrite Rt, Ra. reflexivity.
Qed.

Lemma transfer_moves_amount_between_accounts_witness :
  compute_balance (snd (transfer alice (transfer_request "100000000002" "250") two_accounts)) alice
  = PrimFloat.sub (compute_balance two_accounts alice) 250
  /\ compute_balance (snd (transfer alice (transfer_request "100000000002" "250") two_accounts)) bob
     = PrimFloat.add (compute_balance two_accounts bob) 250.
Proof.
  apply (transfer_moves_amount_between_accounts
           alice bob (transfer_request "100000000002" "250") two_accounts 250).
  - reflexivity.
  - vm_compute; reflexivity.
  - reflexivity.
  - vm_compute; reflexivity.
  - vm_compute; reflexivity.
  - simpl; lia.
Defined.

Lemma own_account_number_found (l : list User) (user : User) :
  distinct (map account_number l) = true ->
  In user l ->
  find (fun u => account_number u =? account_number user) l = Some user.
Proof.
  induction l as [|x l IH]; simpl; intros U I.
  - contradiction.
  - apply andb_true_iff in U. destruct U as [Fresh U].
    destruct I as [->|I].
    + rewrite String.eqb_refl. reflexivity.
    + destruct (account_number x =? account_number user) eqn:E.
      * apply String.eqb_eq in E. apply negb_true_iff in Fresh.
        assert (X : existsb (String.eqb (account_number x)) (map account_number l) = true).
        { apply existsb_exists. exists (account_number user). split.
          - apply in_map. exact I.
          - apply String.eqb_eq. exact E. }
        congruence.
      * apply IH; assumption.
Qed.

(** C7, the case that fails as stated: Alice holds 1000.1 and sends 32.06
    to her own account number.  The transfer is accepted and commits its
    two rows, and the program then derives 1000.0999999999999 for her:
    taking 32.06 off and adding it again has rounded twice. *)
Lemma self_transfer_changes_balance :
  let req := transfer_request "100000000001" "32.06" in
  compute_balance odd_cents alice = 1000.1%float
  /\ float (form_get req "amount") = Some 32.06%float
  /\ PrimFloat.ltb 0 32.06 = true
  /\ PrimFloat.leb 32.06 (compute_balance odd_cents alice) = true
  /\ fst (transfer alice req odd_cents)
     = flash_redirect "Transfer successful!" "success" "transactions_page"
  /\ compute_balance (snd (transfer alice req odd_cents)) alice = 1000.0999999999999%float
  /\ PrimFloat.eqb (compute_balance (snd (transfer alice req odd_cents)) alice)
                   (compute_balance odd_cents alice) = false.
Proof.
  cbv zeta. repeat split; vm_compute; reflexivity.
Qed.

(** C7, amended.  A transfer to the sender's own account number is allowed:
    when the account's derived balance is at least the positive amount, the
    route succeeds and commits the two usual rows -- a Transfer row and a
    Deposit row, both on that account.  The derived balance afterwards is
    the old one with the amount subtracted and then added in binary64,
    which is the old balance up to the rounding of the two steps. *)
Theorem self_transfer_allowed (account : User) (req : request) (db : DB)
        (a : PrimFloat.float) :
  account_numbers_unique db = true ->
  In account (users db) ->
  method req = POST ->
  form_get req "target_account" = Some (account_number account) ->
  float (form_get req "amount") = Some a ->
  PrimFloat.ltb 0 a = true ->
  PrimFloat.leb a (compute_balance db account) = true ->
  fst (transfer account req db)
  = flash_redirect "Transfer successful!" "success" "transactions_page"
  /\ (exists s r,
         transactions (snd (transfer account req db)) = transactions db ++ [s; r]
         /\ is_row s account "Transfer" a /\ is_row r account "Deposit" a)
  /\ compute_balance (snd (transfer account req db)) account
     = PrimFloat.add (PrimFloat.sub (compute_balance db account) a) a.
Proof.
  intros U I M T F P L.
  destruct (leb_passes_funds_check _ _ L) as [G N].
  assert (R : filter_by_account_number db (form_get req "target_account") = Some account).
  { rewrite T. apply own_account_number_found; assumption. }
  destruct (transfer_outcome account account req db a M F R G N)
    as [Ok (s & r & E & (Su & St & Sa) & (Ru & Rt & Ra))].
  rewrite (positive_stored a P) in Sa, Ra.
  split; [exact Ok|]. split; [exists s, r; repeat split; assumption|].
  rewrite (compute_balance_extended _ _ _ account E). simpl.
  rewrite Su, Ru, Nat.eqb_refl. simpl.
  unfold signed_amount. rewrite St, Sa, Rt, Ra. simpl. rewrite sub_add_opp. reflexivity.
Qed.

Lemma self_transfer_allowed_witness :
  fst (transfer alice (transfer_request "100000000001" "250") two_accounts)
  = flash_redirect "Transfer successful!" "success" "transactions_page"
  /\ (exists s r,
         transactions (snd (transfer alice (transfer_request "100000000001" "250") two_accounts))
         = transactions two_accounts ++ [s; r]
         /\ is_row s alice "Transfer" 250 /\ is_row r alice "Deposit" 250)
  /\ compute_balance (snd (transfer alice (transfer_request "100000000001" "250") two_accounts))
                     alice
     = PrimFloat.add (PrimFloat.sub (compute_balance two_accounts alice) 250) 250.
Proof.
  apply (self_transfer_allowed alice (transfer_request "100000000001" "250") two_accounts 250).
  - reflexivity.
  - simpl. left. reflexivity.
  - reflexivity.
  - reflexivity.
  - vm_compute; reflexivity.
  - reflexivity.
  - vm_compute; reflexivity.
Defined.

Lemma transfer_unknown_recipient (sender : User) (req : request) (db : DB)
      (a : PrimFloat.float) :
  method req = POST ->
  float (form_get req "amount") = Some a ->
  filter_by_account_number db (form_get req "target_account") = None ->
  transfer sender req db
  = (flash_redirect "Recipient account not found!" "danger" "transfer", db).
Proof.
  intros M F R. unfold transfer. rewrite M, F, R. reflexivity.
Qed.

(** C8, the case that fails as stated: the amount is read before the
    recipient is looked up, so a transfer to an account number that
    resolves to no account with the amount "ten" is answered with
    InvalidAmount, not RecipientNotFound. *)
Lemma unknown_recipient_bad_amount :
  let req := transfer_request "999999999999" "ten" in
  filter_by_account_number two_accounts (form_get req "target_account") = None
  /\ fst (transfer alice req two_accounts) = flash_redirect "Invalid amount" "danger" "transfer"
  /\ failure_of (fst (transfer alice req two_accounts)) = Some InvalidAmount
  /\ failure_of (fst (transfer alice req two_accounts)) <> Some RecipientNotFound.
Proof.
  cbv zeta. repeat split; try (vm_compute; reflexivity). vm_compute. discriminate.
Qed.

(** C8, amended.  In [transfer] the recipient is looked up before the
    sender's balance is computed: for every call whose amount is a number
    and whose account number resolves to no account, the answer is
    RecipientNotFound -- not InsufficientFunds -- whatever the amount, also
    one above the sender's balance, and the answer is the same for every
    content of the transaction table.  (An amount that is not a number is
    answered with InvalidAmount first.) *)
Theorem transfer_checks_recipient_first (sender : User) (req : request) (db : DB)
        (a : PrimFloat.float) :
  method req = POST ->
  float (form_get req "amount") = Some a ->
  filter_by_account_number db (form_get req "target_account") = None ->
  transfer sender req db
  = (flash_redirect "Recipient account not found!" "danger" "transfer", db)
  /\ failure_of (fst (transfer sender req db)) = Some RecipientNotFound
  /\ failure_of (fst (transfer sender req db)) <> Some InsufficientFunds
  /\ forall txs : list Transaction,
      fst (transfer sender req {| users := users db; transactions := txs |})
      = fst (transfer sender req db).
Proof.
  intros M F R.
  pose proof (transfer_unknown_recipient sender req db a M F R) as E.
  split; [exact E|]. rewrite E. simpl.
  split; [reflexivity|]. split; [discriminate|].
  intro txs.
  rewrite (transfer_unknown_recipient sender req {| users := users db; transactions := txs |}
                                      a M F R).
  reflexivity.
Qed.

Lemma transfer_checks_recipient_first_witness :
  gtb 5000 (compute_balance two_accounts alice) = true
  /\ transfer alice (transfer_request "999999999999" "5000") two_accounts
     = (flash_redirect "Recipient account not found!" "danger" "transfer", two_accounts).
Proof.
  split; [reflexivity|].
  apply (transfer_checks_recipient_first
           alice (transfer_request "999999999999" "5000") two_accounts 5000).
  - reflexivity.
  - vm_compute; reflexivity.
  - reflexivity.
Defined.
(** ** Failed requests *)

Lemma signup_never_fails_on_amount (req : request) (randint : N) (db : DB) :
  failure_of (fst (signup req randint db)) = None.
Proof.
  unfold signup. branch_cases; reflexivity.
Qed.

Lemma failed_route_keeps_db (op : operation) (db : DB) (k : failure) :
  failure_of (fst (run op db)) = Some k -> snd (run op db) = db.
Proof.
  destruct op; simpl run.
  - rewrite signup_never_fails_on_amount. discriminate.
  - unfold login_required, deposit. branch_cases; simpl; intro; congruence.
  - unfold login_required, withdraw. branch_cases; simpl; intro; congruence.
  - unfold login_required, transfer. branch_cases; simpl; intro; congruence.
  - unfold login_required, betting. branch_cases; simpl; intro; congruence.
  - unfold login_required, internet. branch_cases; simpl; intro; congruence.
Qed.

(** More generally, only a request answered with a success message changes
    the tables. *)
Lemma unsuccessful_route_keeps_db (op : operation) (db : DB) :
  (forall endpoint message, fst (run op db) <> redirect endpoint (Some (message, "success"))) ->
  snd (run op db) = db.
Proof.
  intro H.
  assert (X : forall endpoint message d,
             run op db = (flash_redirect message "success" endpoint, d) -> d = db).
  { intros endpoint message d E. exfalso. apply (H endpoint message). rewrite E. reflexivity. }
  revert X. clear H.
  destruct op; simpl run.
  - unfold signup. branch_cases; simpl; intro X; try reflexivity; eapply X; reflexivity.
  - unfold login_required, deposit.
    branch_cases; simpl; intro X; try reflexivity; eapply X; reflexivity.
  - unfold login_required, withdraw.
    branch_cases; simpl; intro X; try reflexivity; eapply X; reflexivity.
  - unfold login_required, transfer.
    branch_cases; simpl; intro X; try reflexivity; eapply X; reflexivity.
  - unfold login_required, betting.
    branch_cases; simpl; intro X; try reflexivity; eapply X; reflexivity.
  - unfold login_required, internet.
    branch_cases; simpl; intro X; try reflexivity; eapply X; reflexivity.
Qed.

(** C5. An operation that fails validation -- with InvalidAmount,
    InsufficientFunds or RecipientNotFound -- leaves the ledger as it was:
    the tables are unchanged, so no row is appended to any account and every
    account's derived balance is what it was before the call.  In
    particular a transfer whose account number resolves to no account fails
    with RecipientNotFound and changes nothing. *)
Theorem failed_operation_leaves_ledger_unchanged (op : operation) (db : DB) :
  (forall k : failure,
      failure_of (fst (run op db)) = Some k ->
      snd (run op db) = db
      /\ forall account : User,
          user_transactions (snd (run op db)) account = user_transactions db account
          /\ compute_balance (snd (run op db)) account = compute_balance db account)
  /\ (forall (session_user_id : nat) (sender : User) (req : request) (a : PrimFloat.float),
         op = op_transfer session_user_id req ->
         load_user db session_user_id = Some sender ->
         method req = POST ->
         float (form_get req "amount") = Some a ->
         filter_by_account_number db (form_get req "target_account") = None ->
         failure_of (fst (run op db)) = Some RecipientNotFound
         /\ snd (run op db) = db).
Proof.
  split.
  - intros k F. rewrite (failed_route_keeps_db op db k F). auto.
  - intros uid sender req a -> L M F R. simpl run. unfold login_required. rewrite L.
    rewrite (transfer_unknown_recipient sender req db a M F R). split; reflexivity.
Qed.

Lemma failed_operation_leaves_ledger_unchanged_witness :
  (snd (run (op_withdraw 1 (post 3 [("amount", "2000")])) two_accounts) = two_accounts
   /\ forall account : User,
       user_transactions (snd (run (op_withdraw 1 (post 3 [("amount", "2000")])) two_accounts))
                         account
       = user_transactions two_accounts account
       /\ compute_balance (snd (run (op_withdraw 1 (post 3 [("amount", "2000")])) two_accounts))
                          account
          = compute_balance two_accounts account)
  /\ (failure_of (fst (run (op_transfer 1 (transfer_request "999999999999" "250")) two_accounts))
      = Some RecipientNotFound
      /\ snd (run (op_transfer 1 (transfer_request "999999999999" "250")) two_accounts)
         = two_accounts).
Proof.
  split.
  - apply (proj1 (failed_operation_leaves_ledger_unchanged
                    (op_withdraw 1 (post 3 [("amount", "2000")])) two_accounts)
                 InsufficientFunds).
    reflexivity.
  - apply (proj2 (failed_operation_leaves_ledger_unchanged
                    (op_transfer 1 (transfer_request "999999999999" "250")) two_accounts)
                 1%nat alice (transfer_request "999999999999" "250") 250%float).
    + reflexivity.
    + reflexivity.
    + reflexivity.
    + vm_compute; reflexivity.
    + reflexivity.
Defined.

(** ** Amounts *)

Lemma amounts_positive_commit (db db' : DB) (now : nat) (added : list new_Transaction) :
  amounts_positive db ->
  Forall (fun t => PrimFloat.ltb 0 (new_amount t) = true) added ->
  commit db now added = Some db' ->
  amounts_positive db'.
Proof.
  intros P A C. apply commit_some in C. destruct C as (_ & T & _).
  unfold amounts_positive in *. rewrite T. clear T db'.
  revert P. generalize (transactions db) as txs.
  induction added as [|t added IH]; intros txs P; simpl.
  - exact P.
  - inversion A as [|? ? At Aadded]; subst. apply IH; [exact Aadded|].
    apply Forall_app. split; [exact P|]. constructor; [|constructor].
    simpl. rewrite (positive_stored _ At). exact At.
Qed.

Lemma amounts_positive_commit_user (db db1 : DB) (n : new_User) (u : User) :
  commit_user db n = Some (db1, u) -> amounts_positive db -> amounts_positive db1.
Proof.
  unfold commit_user. destruct (existsb _ _); [discriminate|].
  intros [= <- _] P. exact P.
Qed.

(** C4, the case that fails as stated: the deposit route takes the amount
    -5, answers with success and not with InvalidAmount, and commits a
    Deposit row whose amount is -5. *)
Lemma deposit_accepts_negative_amount :
  let req := post 3 [("amount", "-5")] in
  float (form_get req "amount") = Some (-5)%float
  /\ amounts_positive two_accounts
  /\ fst (deposit alice req two_accounts)
     = flash_redirect "Deposit successful!" "success" "transactions_page"
  /\ failure_of (fst (deposit alice req two_accounts)) <> Some InvalidAmount
  /\ (exists t, transactions (snd (deposit alice req two_accounts))
                = transactions two_accounts ++ [t]
                /\ is_row t alice "Deposit" (-5)%float)
  /\ ~ amounts_positive (snd (deposit alice req two_accounts)).
Proof.
  cbv zeta. split; [vm_compute; reflexivity|].
  split; [repeat constructor|].
  split; [vm_compute; reflexivity|].
  split; [vm_compute; discriminate|].
  split.
  - eexists. split; [vm_compute; reflexivity|]. repeat split.
  - intro P. unfold amounts_positive in P. rewrite Forall_forall in P.
    assert (X : PrimFloat.ltb 0 (-5) = true).
    { apply (P {| txn_id := 3; user_id := 1; txn_type := "Deposit"; amount := (-5)%float;
                  date := 3; description := "Manual deposit" |}).
      vm_compute. auto. }
    vm_compute in X. discriminate.
Qed.

(** C4, amended.  Every operation preserves "all stored transaction amounts
    are > 0" when the amount it is asked to move is strictly positive, and
    an operation answered with InvalidAmount had an amount that is not a
    number and has appended nothing.  (A zero or negative number is not
    answered with InvalidAmount.) *)
Theorem positive_amounts_preserved (op : operation) (db : DB) :
  (amounts_positive db ->
   (forall a : PrimFloat.float, requested_amount op = Some a -> PrimFloat.ltb 0 a = true) ->
   amounts_positive (snd (run op db)))
  /\ (failure_of (fst (run op db)) = Some InvalidAmount ->
      requested_amount op = None /\ snd (run op db) = db).
Proof.
  split.
  - intros P A.
    assert (K : forall d now added d',
               amounts_positive d ->
               Forall (fun t => PrimFloat.ltb 0 (new_amount t) = true) added ->
               commit d now added = Some d' -> amounts_positive d')
      by (intros; eapply amounts_positive_commit; eassumption).
    destruct op; simpl run; simpl requested_amount in A.
    + unfold signup. branch_cases; simpl snd; try exact P.
      match goal with H : commit_user _ _ = Some _ |- _ =>
        apply amounts_positive_commit_user in H; [|exact P] end.
      unfold amounts_positive in *. simpl. apply Forall_app. split; [assumption|].
      repeat constructor.
    + unfold login_required, deposit. branch_cases; simpl snd; try exact P.
      eapply K; [exact P| |eassumption]. repeat constructor. simpl. auto.
    + unfold login_required, withdraw. branch_cases; simpl snd; try exact P.
      eapply K; [exact P| |eassumption]. repeat constructor. simpl. auto.
    + unfold login_required, transfer. branch_cases; simpl snd; try exact P.
      eapply K; [exact P| |eassumption]. repeat constructor; simpl; auto.
    + unfold login_required, betting. branch_cases; simpl snd; try exact P.
      eapply K; [exact P| |eassumption]. repeat constructor. simpl. auto.
    + unfold login_required, internet. branch_cases; simpl snd; try exact P.
      eapply K; [exact P| |eassumption]. repeat constructor. simpl. auto.
  - intro F. split; [|exact (failed_route_keeps_db op db InvalidAmount F)].
    revert F. destruct op; simpl run; simpl requested_amount.
    + rewrite signup_never_fails_on_amount. discriminate.
    + unfold login_required, deposit. branch_cases; simpl; intro; congruence.
    + unfold login_required, withdraw. branch_cases; simpl; intro; congruence.
    + unfold login_required, transfer. branch_cases; simpl; intro; congruence.
    + unfold login_required, betting. branch_cases; simpl; intro; congruence.
    + unfold login_required, internet. branch_cases; simpl; intro; congruence.
Qed.

Lemma positive_amounts_preserved_witness :
  amounts_positive (snd (run (op_deposit 1 (post 3 [("amount", "500")])) two_accounts))
  /\ (requested_amount (op_withdraw 1 (post 3 [("amount", "ten")])) = None
      /\ snd (run (op_withdraw 1 (post 3 [("amount", "ten")])) two_accounts) = two_accounts).
Proof.
  split.
  - apply (proj1 (positive_amounts_preserved
                    (op_deposit 1 (post 3 [("amount", "500")])) two_accounts)).
    + repeat constructor.
    + intros a E. vm_compute in E. injection E as <-. reflexivity.
  - apply (proj2 (positive_amounts_preserved
                    (op_withdraw 1 (post 3 [("amount", "ten")])) two_accounts)).
    reflexivity.
Defined.

(** ** Frame *)

Lemma commit_one_appends_for (user : User) (db db' : DB) (now : nat) (t : new_Transaction) :
  new_user_id t = id user ->
  commit db now [t] = Some db' ->
  appends_at_most_one_for user db db'.
Proof.
  intros E C. pose proof (transactions_commit_one _ _ _ _ C) as T.
  apply commit_some in C. destruct C as (U & _).
  split; [exact U|]. right. eexists. split; [exact T|exact E].
Qed.

Lemma unchanged_appends_for (user : User) (db : DB) :
  appends_at_most_one_for user db db.
Proof. split; auto. Qed.

Lemma single_row_routes_append_for (route : User -> request -> DB -> response * DB)
      (current_user : User) (req : request) (db : DB) :
  In route [deposit; withdraw; betting; internet] ->
  appends_at_most_one_for current_user db (snd (route current_user req db)).
Proof.
  simpl. intros [<-|[<-|[<-|[<-|[]]]]].
  - unfold deposit. branch_cases; simpl snd;
      first [apply unchanged_appends_for
            | eapply commit_one_appends_for; [|eassumption]; reflexivity].
  - unfold withdraw. branch_cases; simpl snd;
      first [apply unchanged_appends_for
            | eapply commit_one_appends_for; [|eassumption]; reflexivity].
  - unfold betting. branch_cases; simpl snd;
      first [apply unchanged_appends_for
            | eapply commit_one_appends_for; [|eassumption]; reflexivity].
  - unfold internet. branch_cases; simpl snd;
      first [apply unchanged_appends_for
            | eapply commit_one_appends_for; [|eassumption]; reflexivity].
Qed.

Lemma other_account_untouched (user other : User) (db db' : DB) :
  appends_at_most_one_for user db db' ->
  id other <> id user ->
  user_transactions db' other = user_transactions db other.
Proof.
  intros [_ [E|(t & E & O)]] D.
  - unfold user_transactions. rewrite E. reflexivity.
  - rewrite (user_transactions_snoc db db' t other E).
    replace (user_id t =? id other)%nat with false.
    + apply app_nil_r.
    + symmetry. apply Nat.eqb_neq. congruence.
Qed.

(** C9. Each of deposit, withdraw and the two funding routes appends at
    most one row, owned by the invoking account; for every other account
    the transaction list, and with it the derived balance, is unchanged. *)
Theorem single_row_routes_touch_only_invoker
        (route : User -> request -> DB -> response * DB)
        (current_user other : User) (req : request) (db : DB) :
  In route [deposit; withdraw; betting; internet] ->
  id other <> id current_user ->
  appends_at_most_one_for current_user db (snd (route current_user req db))
  /\ user_transactions (snd (route current_user req db)) other = user_transactions db other
  /\ compute_balance (snd (route current_user req db)) other = compute_balance db other.
Proof.
  intros R D.
  pose proof (single_row_routes_append_for route current_user req db R) as A.
  pose proof (other_account_untouched current_user other db _ A D) as E.
  split; [exact A|]. split; [exact E|].
  unfold compute_balance. rewrite E. reflexivity.
Qed.

Lemma single_row_routes_touch_only_invoker_witness :
  appends_at_most_one_for alice two_accounts
    (snd (withdraw alice (post 3 [("amount", "400")]) two_accounts))
  /\ user_transactions (snd (withdraw alice (post 3 [("amount", "400")]) two_accounts)) bob
     = user_transactions two_accounts bob
  /\ compute_balance (snd (withdraw alice (post 3 [("amount", "400")]) two_accounts)) bob
     = compute_balance two_accounts bob.
Proof.
  apply (single_row_routes_touch_only_invoker
           withdraw alice bob (post 3 [("amount", "400")]) two_accounts).
  - simpl. right. left. reflexivity.
  - simpl. lia.
Defined.

(** ** Descriptions *)

Lemma deposit_reads_amount_only (current_user : User) (req req' : request) (db : DB) :
  method req = method req' ->
  utcnow req = utcnow req' ->
  form_get req "amount" = form_get req' "amount" ->
  deposit current_user req db = deposit current_user req' db.
Proof.
  intros M N A. unfold deposit. rewrite M, N, A. reflexivity.
Qed.

Lemma withdraw_reads_amount_only (current_user : User) (req req' : request) (db : DB) :
  method req = method req' ->
  utcnow req = utcnow req' ->
  form_get req "amount" = form_get req' "amount" ->
  withdraw current_user req db = withdraw current_user req' db.
Proof.
  intros M N A. unfold withdraw. rewrite M, N, A. reflexivity.
Qed.

(** C10. The deposit and withdraw routes ignore any description the caller
    supplies: two requests that agree on the amount field (and on method
    and time) have the same outcome whatever else their forms hold, and a
    row committed by deposit is a Deposit described "Manual deposit", a row
    committed by withdraw a Withdrawal described "Cash withdrawal". *)
Theorem deposit_withdraw_fix_description
        (current_user : User) (req req' : request) (db : DB) :
  method req = method req' ->
  utcnow req = utcnow req' ->
  form_get req "amount" = form_get req' "amount" ->
  deposit current_user req db = deposit current_user req' db
  /\ withdraw current_user req db = withdraw current_user req' db
  /\ (forall t, transactions (snd (deposit current_user req db)) = transactions db ++ [t] ->
                txn_type t = "Deposit" /\ description t = "Manual deposit")
  /\ (forall t, transactions (snd (withdraw current_user req db)) = transactions db ++ [t] ->
                txn_type t = "Withdrawal" /\ description t = "Cash withdrawal").
Proof.
  intros M N A.
  split; [apply deposit_reads_amount_only; assumption|].
  split; [apply withdraw_reads_amount_only; assumption|].
  split; intro t.
  - unfold deposit. branch_cases; simpl snd; intro E;
      try (apply (f_equal (@List.length _)) in E; rewrite length_app in E; simpl in E;
           exfalso; lia).
    erewrite transactions_commit_one in E by eassumption. apply app_inj_tail in E.
    destruct E as [_ <-]. split; reflexivity.
  - unfold withdraw. branch_cases; simpl snd; intro E;
      try (apply (f_equal (@List.length _)) in E; rewrite length_app in E; simpl in E;
           exfalso; lia).
    erewrite transactions_commit_one in E by eassumption. apply app_inj_tail in E.
    destruct E as [_ <-]. split; reflexivity.
Qed.

Lemma deposit_withdraw_fix_description_witness :
  deposit alice (post 3 [("amount", "500"); ("description", "rent")]) two_accounts
  = deposit alice (post 3 [("amount", "500")]) two_accounts
  /\ withdraw alice (post 3 [("amount", "500"); ("description", "rent")]) two_accounts
     = withdraw alice (post 3 [("amount", "500")]) two_accounts.
Proof.
  destruct (deposit_withdraw_fix_description
              alice (post 3 [("amount", "500"); ("description", "rent")])
              (post 3 [("amount", "500")]) two_accounts) as (D & W & _).
  - reflexivity.
  - reflexivity.
  - reflexivity.
  - split; [exact D|exact W].
Defined.

(** ** Opening an account *)

Lemma list_max_bounds (ids : list nat) (n : nat) :
  In n ids -> (n <= list_max ids)%nat.
Proof.
  intro I. pose proof (list_max_le ids (list_max ids)) as [H _].
  specialize (H (Nat.le_refl _)). rewrite Forall_forall in H. apply H. exact I.
Qed.

Lemma next_id_fresh (ids : list nat) : ~ In (next_id ids) ids.
Proof.
  intro I. apply list_max_bounds in I. unfold next_id in I. lia.
Qed.

(** A user row about to be added owns no transaction row yet. *)
Lemma new_user_has_no_rows (db : DB) (user : User) :
  foreign_keys_ok db = true ->
  id user = next_id (map id (users db)) ->
  filter (fun t => user_id t =? id user)%nat (transactions db) = [].
Proof.
  unfold foreign_keys_ok. intros FK E.
  rewrite forallb_forall in FK.
  induction (transactions db) as [|t txs IH]; simpl; [reflexivity|].
  destruct (user_id t =? id user)%nat eqn:O.
  - exfalso. apply Nat.eqb_eq in O.
    specialize (FK t (or_introl eq_refl)).
    apply existsb_exists in FK. destruct FK as (u & I & Eu).
    apply Nat.eqb_eq in Eu.
    apply (next_id_fresh (map id (users db))).
    rewrite <- E, <- O, <- Eu. apply in_map. exact I.
  - apply IH. intros x Ix. apply FK. right. exact Ix.
Qed.

Lemma seed_is_only_row (db : DB) (us : list User) (new_user : User) (now : nat) :
  foreign_keys_ok db = true ->
  id new_user = next_id (map id (users db)) ->
  user_transactions
    {| users := us;
       transactions := transactions db ++ [row_of (transactions db) now (welcome_txn new_user)] |}
    new_user
  = [row_of (transactions db) now (welcome_txn new_user)].
Proof.
  intros FK E. unfold user_transactions. simpl.
  rewrite filter_app, (new_user_has_no_rows db new_user FK E). simpl.
  rewrite Nat.eqb_refl. reflexivity.
Qed.

(** C6. A successful signup adds one user row and commits exactly one
    transaction row for it: a Deposit of 1000 described "Welcome bonus".
    The new account owns no other row, so its derived balance right after
    opening is exactly 1000. *)
Theorem signup_seeds_welcome_bonus (req : request) (randint : N) (db : DB) :
  foreign_keys_ok db = true ->
  fst (signup req randint db)
  = flash_redirect "Account created successfully! Please log in." "success" "login" ->
  exists new_user seed,
    users (snd (signup req randint db)) = users db ++ [new_user]
    /\ account_number new_user = str randint
    /\ transactions (snd (signup req randint db)) = transactions db ++ [seed]
    /\ is_row seed new_user "Deposit" 1000%float
    /\ description seed = "Welcome bonus"
    /\ user_transactions (snd (signup req randint db)) new_user = [seed]
    /\ compute_balance (snd (signup req randint db)) new_user = 1000%float.
Proof.
  intro FK. unfold signup. branch_cases; simpl fst; try discriminate. intros _.
  match goal with H : commit_user _ _ = Some _ |- _ => rename H into C end.
  unfold commit_user in C. destruct (existsb _ _); [discriminate|].
  injection C as <- <-. simpl snd.
  match goal with |- context [welcome_txn ?u] => set (new_user := u) end.
  exists new_user, (row_of (transactions db) (utcnow req) (welcome_txn new_user)).
  split; [reflexivity|]. split; [reflexivity|].
  split; [reflexivity|].
  split; [repeat split|]. split; [reflexivity|].
  pose proof (seed_is_only_row db (users db ++ [new_user]) new_user (utcnow req) FK eq_refl) as R.
  split; [exact R|].
  unfold compute_balance. rewrite R. vm_compute. reflexivity.
Qed.

Lemma signup_seeds_welcome_bonus_witness :
  exists new_user seed,
    users (snd (signup carol_signup 100000000003 two_accounts)) = users two_accounts ++ [new_user]
    /\ account_number new_user = str 100000000003
    /\ transactions (snd (signup carol_signup 100000000003 two_accounts))
       = transactions two_accounts ++ [seed]
    /\ is_row seed new_user "Deposit" 1000%float
    /\ description seed = "Welcome bonus"
    /\ user_transactions (snd (signup carol_signup 100000000003 two_accounts)) new_user = [seed]
    /\ compute_balance (snd (signup carol_signup 100000000003 two_accounts)) new_user
       = 1000%float.
Proof.
  apply (signup_seeds_welcome_bonus carol_signup 100000000003 two_accounts).
  - reflexivity.
  - reflexivity.
Defined.

(** ** What holds of every reachable database *)

Lemma load_user_in (db : DB) (uid : nat) (user : User) :
  load_user db uid = Some user -> In user (users db) /\ id user = uid.
Proof.
  unfold load_user. intro F. apply find_some in F. destruct F as [I E].
  split; [exact I|]. apply Nat.eqb_eq. exact E.
Qed.

Lemma recipient_in (db : DB) (target : option string) (user : User) :
  filter_by_account_number db target = Some user -> In user (users db).
Proof.
  destruct target as [a|]; simpl; [|discriminate].
  intro F. apply find_some in F. tauto.
Qed.

Lemma owner_exists (l : list User) (user : User) :
  In user l -> existsb (fun u => id u =? id user)%nat l = true.
Proof.
  intro I. apply existsb_exists. exists user. split; [exact I|apply Nat.eqb_refl].
Qed.

Lemma foreign_keys_insert_rows (us : list User) (now : nat) (added : list new_Transaction) :
  forall txs,
    forallb (fun t => existsb (fun u => id u =? user_id t)%nat us) txs = true ->
    forallb (fun t => existsb (fun u => id u =? new_user_id t)%nat us) added = true ->
    forallb (fun t => existsb (fun u => id u =? user_id t)%nat us) (insert_rows txs now added)
    = true.
Proof.
  induction added as [|t added IH]; intros txs T A; simpl.
  - exact T.
  - simpl in A. apply andb_true_iff in A. destruct A as [At A].
    apply IH; [|exact A]. rewrite forallb_app, T. simpl. rewrite At. reflexivity.
Qed.

Lemma foreign_keys_more_users (us more : list User) (txs : list Transaction) :
  forallb (fun t => existsb (fun u => id u =? user_id t)%nat us) txs = true ->
  forallb (fun t => existsb (fun u => id u =? user_id t)%nat (us ++ more)) txs = true.
Proof.
  intro T. rewrite forallb_forall in *. intros t I.
  rewrite existsb_app, (T t I). reflexivity.
Qed.

Lemma commit_keeps_foreign_keys (db db' : DB) (now : nat) (added : list new_Transaction) :
  foreign_keys_ok db = true ->
  forallb (fun t => existsb (fun u => id u =? new_user_id t)%nat (users db)) added = true ->
  commit db now added = Some db' ->
  foreign_keys_ok db' = true.
Proof.
  intros FK A C. apply commit_some in C. destruct C as (U & T & _).
  unfold foreign_keys_ok in *. rewrite U, T.
  apply foreign_keys_insert_rows; assumption.
Qed.

Lemma run_keeps_foreign_keys (op : operation) (db : DB) :
  foreign_keys_ok db = true -> foreign_keys_ok (snd (run op db)) = true.
Proof.
  intro FK.
  destruct op; simpl run.
  - unfold signup. branch_cases; simpl snd; try exact FK.
    match goal with H : commit_user _ _ = Some _ |- _ => rename H into C end.
    unfold commit_user in C. destruct (existsb _ _); [discriminate|].
    injection C as <- <-. unfold foreign_keys_ok in *. cbn [users transactions].
    apply (foreign_keys_insert_rows _ (utcnow req) [welcome_txn _]).
    + apply foreign_keys_more_users. exact FK.
    + simpl. rewrite existsb_app. simpl. rewrite Nat.eqb_refl, orb_true_r. reflexivity.
  - unfold login_required, deposit. branch_cases; simpl snd; try exact FK.
    eapply commit_keeps_foreign_keys; [exact FK| |eassumption]. simpl.
    rewrite owner_exists; [reflexivity|]. eapply load_user_in; eassumption.
  - unfold login_required, withdraw. branch_cases; simpl snd; try exact FK.
    eapply commit_keeps_foreign_keys; [exact FK| |eassumption]. simpl.
    rewrite owner_exists; [reflexivity|]. eapply load_user_in; eassumption.
  - unfold login_required, transfer. branch_cases; simpl snd; try exact FK.
    eapply commit_keeps_foreign_keys; [exact FK| |eassumption]. simpl.
    rewrite 2 owner_exists; [reflexivity| |].
    + eapply recipient_in; eassumption.
    + eapply load_user_in; eassumption.
  - unfold login_required, betting. branch_cases; simpl snd; try exact FK.
    eapply commit_keeps_foreign_keys; [exact FK| |eassumption]. simpl.
    rewrite owner_exists; [reflexivity|]. eapply load_user_in; eassumption.
  - unfold login_required, internet. branch_cases; simpl snd; try exact FK.
    eapply commit_keeps_foreign_keys; [exact FK| |eassumption]. simpl.
    rewrite owner_exists; [reflexivity|]. eapply load_user_in; eassumption.
Qed.

Lemma distinct_snoc (l : list string) (x : string) :
  distinct l = true ->
  existsb (fun y => y =? x) l = false ->
  distinct (l ++ [x]) = true.
Proof.
  induction l as [|y l IH]; simpl; intros D F.
  - reflexivity.
  - apply andb_true_iff in D. destruct D as [Dy D].
    apply orb_false_iff in F. destruct F as [Fy F].
    rewrite existsb_app. simpl. rewrite Fy. simpl. rewrite orb_false_r, Dy.
    simpl. apply IH; assumption.
Qed.

Lemma run_keeps_account_numbers_unique (op : operation) (db : DB) :
  account_numbers_unique db = true -> account_numbers_unique (snd (run op db)) = true.
Proof.
  unfold account_numbers_unique. intro U.
  destruct op; simpl run.
  - unfold signup. branch_cases; simpl snd; try exact U.
    match goal with H : commit_user _ _ = Some _ |- _ => rename H into C end.
    unfold commit_user in C. destruct (existsb _ _) eqn:X; [discriminate|].
    injection C as <- <-. simpl. rewrite map_app. simpl.
    apply distinct_snoc; [exact U|].
    clear -X. induction (users db) as [|u us IH]; simpl in *; [reflexivity|].
    apply orb_false_iff in X. destruct X as [Xu X].
    unfold repeats_unique in Xu. simpl in Xu.
    apply orb_false_iff in Xu. destruct Xu as [Xu _].
    apply orb_false_iff in Xu. destruct Xu as [_ Xu].
    rewrite Xu. simpl. apply IH. exact X.
  - unfold login_required, deposit. branch_cases; simpl snd; try exact U;
      match goal with H : commit _ _ _ = Some _ |- _ =>
        apply commit_some in H; destruct H as (-> & _) end; exact U.
  - unfold login_required, withdraw. branch_cases; simpl snd; try exact U;
      match goal with H : commit _ _ _ = Some _ |- _ =>
        apply commit_some in H; destruct H as (-> & _) end; exact U.
  - unfold login_required, transfer. branch_cases; simpl snd; try exact U;
      match goal with H : commit _ _ _ = Some _ |- _ =>
        apply commit_some in H; destruct H as (-> & _) end; exact U.
  - unfold login_required, betting. branch_cases; simpl snd; try exact U;
      match goal with H : commit _ _ _ = Some _ |- _ =>
        apply commit_some in H; destruct H as (-> & _) end; exact U.
  - unfold login_required, internet. branch_cases; simpl snd; try exact U;
      match goal with H : commit _ _ _ = Some _ |- _ =>
        apply commit_some in H; destruct H as (-> & _) end; exact U.
Qed.

(** In every database the application can reach, each transaction row
    belongs to a user row and no account number is used twice: the
    well-formedness assumed of the database when an account is opened and
    when an account sends to its own number. *)
Lemma reachable_well_formed (db : DB) :
  reachable db -> foreign_keys_ok db = true /\ account_numbers_unique db = true.
Proof.
  induction 1 as [|op db _ [FK U]].
  - split; reflexivity.
  - split.
    + apply run_keeps_foreign_keys. exact FK.
    + apply run_keeps_account_numbers_unique. exact U.
Qed.

(** A logged-in user is a row of the user table, so in a reachable database
    the user's own account number resolves to the user. *)
Lemma reachable_own_account_number (db : DB) (session_user_id : nat) (user : User) :
  reachable db ->
  load_user db session_user_id = Some user ->
  filter_by_account_number db (Some (account_number user)) = Some user.
Proof.
  intros R L. apply own_account_number_found.
  - apply reachable_well_formed. exact R.
  - eapply load_user_in. exact L.
Qed.

(** ** The scenario of the specification *)

(** A opens (1000), deposits 500 (1500), fails to withdraw 2000 (still
    1500), and sends 1500 to B, who opened with 1000: A holds 0, B 2500. *)
Example ledger_scenario :
  let open_a := op_signup (post 1 [("email", "alice@example.com"); ("password", "secret")])
                          100000000001 in
  let open_b := op_signup (post 2 [("email", "bob@example.com"); ("password", "hunter2");
                                   ("account_type", "merchant"); ("username", "bob")])
                          100000000002 in
  let db1 := snd (run open_a empty_db) in
  let db2 := snd (run (op_deposit 1 (post 3 [("amount", "500.0")])) db1) in
  let r3 := run (op_withdraw 1 (post 4 [("amount", "2000.0")])) db2 in
  let db4 := snd (run open_b (snd r3)) in
  let db5 := snd (run (op_transfer 1 (post 6 [("target_account", "100000000002");
                                              ("amount", "1500.0")])) db4) in
  compute_balance db1 alice = 1000%float
  /\ compute_balance db2 alice = 1500%float
  /\ failure_of (fst r3) = Some InsufficientFunds
  /\ snd r3 = db2
  /\ compute_balance db4 bob = 1000%float
  /\ compute_balance db5 alice = 0%float
  /\ compute_balance db5 bob = 2500%float.
Proof.
  cbv zeta. repeat split; vm_compute; reflexivity.
Qed.

(** * Further properties of the routes *)

(** ** Successful money movements *)

Lemma balance_after_commit_one (db db' : DB) (now : nat) (t : new_Transaction) (user : User) :
  commit db now [t] = Some db' ->
  new_user_id t = id user ->
  compute_balance db' user
  = PrimFloat.add (compute_balance db user)
                  (if new_txn_type t =? "Deposit" then stored (new_amount t)
                   else PrimFloat.opp (stored (new_amount t))).
Proof.
  intros C O.
  rewrite (compute_balance_extended db db' _ user (transactions_commit_one db db' now t C)).
  simpl. rewrite O, Nat.eqb_refl. reflexivity.
Qed.

Lemma commit_one_storable (db : DB) (now : nat) (t : new_Transaction) :
  is_nan (new_amount t) = false ->
  commit db now [t]
  = Some {| users := users db; transactions := transactions db ++ [row_of (transactions db) now t] |}.
Proof.
  intro N. rewrite commit_storable; [reflexivity|]. simpl. rewrite N. reflexivity.
Qed.

Lemma commit_one_nan (db : DB) (now : nat) (t : new_Transaction) :
  is_nan (new_amount t) = true -> commit db now [t] = None.
Proof.
  intro N. unfold commit. simpl. rewrite N. reflexivity.
Qed.

(** A deposit POST whose amount parses is not checked for funds or sign.
    When the amount is a number, the request succeeds, commits one Deposit
    row of that amount on the caller, dated with the request, and the
    caller's derived balance becomes the binary64 sum of the old balance
    and the amount.  When the amount is a NaN, the commit fails: the
    request ends in a server error and nothing is stored. *)
Theorem deposit_adds_amount (current_user : User) (req : request) (db : DB)
        (a : PrimFloat.float) :
  method req = POST ->
  float (form_get req "amount") = Some a ->
  (is_nan a = true -> deposit current_user req db = (internal_server_error, db))
  /\ (is_nan a = false ->
      fst (deposit current_user req db)
      = flash_redirect "Deposit successful!" "success" "transactions_page"
      /\ (exists t, transactions (snd (deposit current_user req db)) = transactions db ++ [t]
                    /\ is_row t current_user "Deposit" (stored a) /\ date t = utcnow req)
      /\ compute_balance (snd (deposit current_user req db)) current_user
         = PrimFloat.add (compute_balance db current_user) (stored a)).
Proof.
  intros M F. unfold deposit. rewrite M, F. cbv zeta. split; intro N.
  - rewrite commit_one_nan by exact N. reflexivity.
  - pose proof (commit_one_storable db (utcnow req)
                  {| new_user_id := id current_user; new_txn_type := "Deposit";
                     new_amount := a; new_description := "Manual deposit" |} N) as C.
    rewrite C. simpl fst. simpl snd.
    split; [reflexivity|]. split.
    + eexists. split; [reflexivity|]. repeat split.
    + rewrite (balance_after_commit_one _ _ _ _ current_user C eq_refl). reflexivity.
Qed.

Lemma deposit_adds_amount_witness :
  (is_nan 12.5 = true
   -> deposit alice (post 3 [("amount", "12.5")]) two_accounts
      = (internal_server_error, two_accounts))
  /\ (is_nan 12.5 = false ->
      fst (deposit alice (post 3 [("amount", "12.5")]) two_accounts)
      = flash_redirect "Deposit successful!" "success" "transactions_page"
      /\ (exists t, transactions (snd (deposit alice (post 3 [("amount", "12.5")]) two_accounts))
                    = transactions two_accounts ++ [t]
                    /\ is_row t alice "Deposit" (stored 12.5) /\ date t = 3%nat)
      /\ compute_balance (snd (deposit alice (post 3 [("amount", "12.5")]) two_accounts)) alice
         = PrimFloat.add (compute_balance two_accounts alice) (stored 12.5)).
Proof.
  apply (deposit_adds_amount alice (post 3 [("amount", "12.5")]) two_accounts 12.5%float).
  - reflexivity.
  - vm_compute; reflexivity.
Defined.

(** A withdrawal of an amount that is at most the caller's derived balance
    ([amount <= balance] in binary64) succeeds, commits one Withdrawal row
    of that amount on the caller, and the caller's derived balance becomes
    the binary64 difference of the old balance and the amount. *)
Theorem withdraw_takes_amount (current_user : User) (req : request) (db : DB)
        (a : PrimFloat.float) :
  method req = POST ->
  float (form_get req "amount") = Some a ->
  PrimFloat.leb a (compute_balance db current_user) = true ->
  fst (withdraw current_user req db)
  = flash_redirect "Withdrawal successful!" "success" "transactions_page"
  /\ (exists t, transactions (snd (withdraw current_user req db)) = transactions db ++ [t]
                /\ is_row t current_user "Withdrawal" (stored a) /\ date t = utcnow req)
  /\ compute_balance (snd (withdraw current_user req db)) current_user
     = PrimFloat.sub (compute_balance db current_user) (stored a).
Proof.
  intros M F L. destruct (leb_passes_funds_check _ _ L) as [G N].
  unfold withdraw, compute_balance in *.
  rewrite M, F. cbv zeta. rewrite G.
  pose proof (commit_one_storable db (utcnow req)
                {| new_user_id := id current_user; new_txn_type := "Withdrawal";
                   new_amount := a; new_description := "Cash withdrawal" |} N) as C.
  rewrite C. simpl fst. simpl snd.
  split; [reflexivity|]. split.
  - eexists. split; [reflexivity|]. repeat split.
  - fold (compute_balance db current_user).
    etransitivity; [exact (balance_after_commit_one _ _ _ _ current_user C eq_refl)|].
    simpl. symmetry. apply sub_add_opp.
Qed.

Lemma withdraw_takes_amount_witness :
  compute_balance (snd (withdraw alice (post 3 [("amount", "400")]) two_accounts)) alice
  = PrimFloat.sub (compute_balance two_accounts alice) (stored 400).
Proof.
  apply (withdraw_takes_amount alice (post 3 [("amount", "400")]) two_accounts 400%float).
  - reflexivity.
  - vm_compute; reflexivity.
  - vm_compute; reflexivity.
Defined.

(** Funding a betting account with an amount that is at most the caller's
    derived balance succeeds, commits one "Betting Funding" row of that
    amount whose description names the company and the betting account,
    and the caller's derived balance becomes the binary64 difference of the
    old balance and the amount. *)
Theorem betting_takes_amount (current_user : User) (req : request) (db : DB)
        (a : PrimFloat.float) :
  method req = POST ->
  float (form_get req "amount") = Some a ->
  PrimFloat.leb a (compute_balance db current_user) = true ->
  failure_of (fst (betting current_user req db)) = None
  /\ fst (betting current_user req db) <> internal_server_error
  /\ (exists t, transactions (snd (betting current_user req db)) = transactions db ++ [t]
                /\ is_row t current_user "Betting Funding" (stored a)
                /\ description t
                   = ("Funded " ++ fmt (form_get req "company") ++ " account ("
                                ++ fmt (form_get req "account_id") ++ ")")%string)
  /\ compute_balance (snd (betting current_user req db)) current_user
     = PrimFloat.sub (compute_balance db current_user) (stored a).
Proof.
  intros M F L. destruct (leb_passes_funds_check _ _ L) as [G N].
  unfold betting, compute_balance in *.
  rewrite M, F. cbv zeta. rewrite G.
  match goal with
  | |- context [commit ?d ?n [?t]] => pose proof (commit_one_storable d n t N) as C
  end.
  rewrite C. simpl fst. simpl snd.
  split; [reflexivity|]. split; [discriminate|]. split.
  - eexists. split; [reflexivity|]. repeat split.
  - fold (compute_balance db current_user).
    etransitivity; [exact (balance_after_commit_one _ _ _ _ current_user C eq_refl)|].
    simpl. symmetry. apply sub_add_opp.
Qed.

Lemma betting_takes_amount_witness :
  compute_balance
    (snd (betting alice (post 3 [("company", "Bet9ja"); ("account_id", "77"); ("amount", "400")])
                  two_accounts)) alice
  = PrimFloat.sub (compute_balance two_accounts alice) (stored 400).
Proof.
  apply (betting_takes_amount
           alice (post 3 [("company", "Bet9ja"); ("account_id", "77"); ("amount", "400")])
           two_accounts 400%float).
  - reflexivity.
  - vm_compute; reflexivity.
  - vm_compute; reflexivity.
Defined.

(** A data purchase with its three fields filled in and a price that
    parses is not checked against the balance.  When the price is a number,
    one "Data Purchase" row of the price is committed, whatever the caller
    holds, and the caller's derived balance becomes the binary64 difference
    of the old balance and the price.  When the price is a NaN, the commit
    fails: the request ends in a server error and nothing is stored. *)
Theorem internet_takes_price (current_user : User) (req : request) (db : DB)
        (a : PrimFloat.float) :
  method req = POST ->
  truthy (form_get req "phone_number") = true ->
  truthy (form_get req "bundle") = true ->
  truthy (form_get req "payment_method") = true ->
  float_str (bundle_price (fmt (form_get req "bundle"))) = Some a ->
  (is_nan a = true -> internet current_user req db = (internal_server_error, db))
  /\ (is_nan a = false ->
      failure_of (fst (internet current_user req db)) = None
      /\ fst (internet current_user req db) <> internal_server_error
      /\ (exists t, transactions (snd (internet current_user req db)) = transactions db ++ [t]
                    /\ is_row t current_user "Data Purchase" (stored a))
      /\ compute_balance (snd (internet current_user req db)) current_user
         = PrimFloat.sub (compute_balance db current_user) (stored a)).
Proof.
  intros M P B PM F. unfold internet. rewrite M, P, B, PM. cbv zeta. simpl negb. simpl orb.
  cbv iota. rewrite F. split; intro N.
  - rewrite commit_one_nan by exact N. reflexivity.
  - match goal with
    | |- context [commit ?d ?n [?t]] => pose proof (commit_one_storable d n t N) as C
    end.
    rewrite C. simpl fst. simpl snd.
    split; [reflexivity|]. split; [discriminate|]. split.
    + eexists. split; [reflexivity|]. repeat split.
    + etransitivity; [exact (balance_after_commit_one _ _ _ _ current_user C eq_refl)|].
      simpl. symmetry. apply sub_add_opp.
Qed.

Lemma internet_takes_price_witness :
  (is_nan 5000 = true
   -> internet bob data_request two_accounts = (internal_server_error, two_accounts))
  /\ (is_nan 5000 = false ->
      failure_of (fst (internet bob data_request two_accounts)) = None
      /\ fst (internet bob data_request two_accounts) <> internal_server_error
      /\ (exists t, transactions (snd (internet bob data_request two_accounts))
                    = transactions two_accounts ++ [t]
                    /\ is_row t bob "Data Purchase" (stored 5000))
      /\ compute_balance (snd (internet bob data_request two_accounts)) bob
         = PrimFloat.sub (compute_balance two_accounts bob) (stored 5000)).
Proof.
  apply (internet_takes_price bob data_request two_accounts 5000%float).
  - reflexivity.
  - reflexivity.
  - reflexivity.
  - reflexivity.
  - vm_compute; reflexivity.
Defined.

(** ** Conservation *)

Lemma signed_total_app (value : PrimFloat.float -> Q) (l l' : list Transaction) :
  signed_total value (l ++ l') == signed_total value l + signed_total value l'.
Proof.
  induction l as [|t l IH]; simpl.
  - lra.
  - rewrite IH. lra.
Qed.

(** A transfer request moves money and creates none.  The two rows an
    accepted transfer appends carry the same stored amount, one counted as
    an outflow and one as an inflow, so whether the request is accepted or
    refused, the signed total over the whole transaction table (Deposits
    minus everything else), taken in exact arithmetic under any reading
    [value] of the stored amounts as numbers, is what it was. *)
Theorem transfer_conserves_total (sender : User) (req : request) (db : DB)
        (value : PrimFloat.float -> Q) :
  signed_total value (transactions (snd (transfer sender req db)))
  == signed_total value (transactions db).
Proof.
  unfold transfer. route_cases; simpl snd; try reflexivity.
  match goal with H : commit _ _ _ = Some _ |- _ =>
    rewrite (transactions_commit_two _ _ _ _ _ H) end.
  rewrite signed_total_app. simpl. lra.
Qed.

(** ** Requests in sequence *)

(** The same withdrawal sent twice is paid once when the balance covers it
    once only: if the amount is at most the balance, and exceeds what the
    first withdrawal leaves (the binary64 difference of balance and
    amount), the first request is accepted and the second, made on the
    resulting ledger, is refused with InsufficientFunds and commits
    nothing. *)
Theorem second_withdrawal_refused
        (current_user : User) (req1 req2 : request) (db : DB) (a : PrimFloat.float) :
  method req1 = POST -> float (form_get req1 "amount") = Some a ->
  method req2 = POST -> float (form_get req2 "amount") = Some a ->
  PrimFloat.leb a (compute_balance db current_user) = true ->
  gtb a (PrimFloat.sub (compute_balance db current_user) (stored a)) = true ->
  fst (withdraw current_user req1 db)
  = flash_redirect "Withdrawal successful!" "success" "transactions_page"
  /\ withdraw current_user req2 (snd (withdraw current_user req1 db))
     = (flash_redirect "Insufficient funds!" "danger" "withdraw",
        snd (withdraw current_user req1 db)).
Proof.
  intros M1 F1 M2 F2 L G2.
  assert (B : compute_balance (snd (withdraw current_user req1 db)) current_user
              = PrimFloat.sub (compute_balance db current_user) (stored a)
              /\ fst (withdraw current_user req1 db)
                 = flash_redirect "Withdrawal successful!" "success" "transactions_page").
  { destruct (leb_passes_funds_check _ _ L) as [G N].
    unfold withdraw, compute_balance in *.
    rewrite M1, F1. cbv zeta. rewrite G.
    pose proof (commit_one_storable db (utcnow req1)
                  {| new_user_id := id current_user; new_txn_type := "Withdrawal";
                     new_amount := a; new_description := "Cash withdrawal" |} N) as C.
    rewrite C. simpl fst. simpl snd. split; [|reflexivity].
    fold (compute_balance db current_user).
    etransitivity; [exact (balance_after_commit_one _ _ _ _ current_user C eq_refl)|].
    simpl. symmetry. apply sub_add_opp. }
  destruct B as [B Ok]. split; [exact Ok|].
  apply (withdraw_checks_funds current_user req2 _ a M2 F2).
  rewrite B. exact G2.
Qed.

Lemma second_withdrawal_refused_witness :
  withdraw alice (post 4 [("amount", "600")])
           (snd (withdraw alice (post 3 [("amount", "600")]) two_accounts))
  = (flash_redirect "Insufficient funds!" "danger" "withdraw",
     snd (withdraw alice (post 3 [("amount", "600")]) two_accounts)).
Proof.
  apply (second_withdrawal_refused
           alice (post 3 [("amount", "600")]) (post 4 [("amount", "600")]) two_accounts
           600%float).
  - reflexivity.
  - vm_compute; reflexivity.
  - reflexivity.
  - vm_compute; reflexivity.
  - vm_compute; reflexivity.
  - vm_compute; reflexivity.
Defined.

(** ** The tables only grow *)

Lemma insert_rows_appends (now : nat) (added : list new_Transaction) :
  forall txs, exists rows,
      insert_rows txs now added = txs ++ rows /\ List.length rows = List.length added.
Proof.
  induction added as [|t added IH]; intro txs; simpl.
  - exists []. rewrite app_nil_r. auto.
  - destruct (IH (txs ++ [row_of txs now t])) as (rows & E & L).
    exists (row_of txs now t :: rows). rewrite E, <- app_assoc. simpl. auto.
Qed.

Lemma commit_user_appends (db db1 : DB) (n : new_User) (u : User) :
  commit_user db n = Some (db1, u) ->
  users db1 = users db ++ [u] /\ transactions db1 = transactions db
  /\ id u = next_id (map id (users db))
  /\ email u = new_email n /\ account_number u = new_account_number n
  /\ username u = new_username n
  /\ existsb (repeats_unique n) (users db) = false.
Proof.
  unfold commit_user. destruct (existsb _ _) eqn:X; [discriminate|].
  intros [= <- <-]. simpl. repeat split.
Qed.

Lemma run_appends (op : operation) (db : DB) :
  exists new_users new_rows,
    users (snd (run op db)) = users db ++ new_users
    /\ transactions (snd (run op db)) = transactions db ++ new_rows
    /\ (List.length new_users <= 1)%nat /\ (List.length new_rows <= 2)%nat.
Proof.
  assert (Same : forall d : DB, exists new_users new_rows,
               users d = users d ++ new_users /\ transactions d = transactions d ++ new_rows
               /\ (List.length new_users <= 1)%nat /\ (List.length new_rows <= 2)%nat).
  { intro d. exists [], []. rewrite !app_nil_r. repeat split; simpl; lia. }
  assert (Rows : forall (d d' : DB) now added,
             (List.length added <= 2)%nat ->
             commit d now added = Some d' ->
             exists new_users new_rows,
               users d' = users d ++ new_users
               /\ transactions d' = transactions d ++ new_rows
               /\ (List.length new_users <= 1)%nat /\ (List.length new_rows <= 2)%nat).
  { intros d d' now added L C. apply commit_some in C. destruct C as (U & T & _).
    destruct (insert_rows_appends now added (transactions d)) as (rows & E & Lr).
    exists [], rows. rewrite U, T, app_nil_r, E. repeat split; simpl; lia. }
  destruct op; simpl run.
  - unfold signup. branch_cases; simpl snd; try apply Same.
    match goal with H : commit_user _ _ = Some _ |- _ =>
      apply commit_user_appends in H; destruct H as (U & T & _) end.
    eexists [_], [_]. simpl. rewrite U, T. repeat split; simpl; lia.
  - unfold login_required, deposit. branch_cases; simpl snd;
      first [apply Same | eapply Rows; [|eassumption]; simpl; lia].
  - unfold login_required, withdraw. branch_cases; simpl snd;
      first [apply Same | eapply Rows; [|eassumption]; simpl; lia].
  - unfold login_required, transfer. branch_cases; simpl snd;
      first [apply Same | eapply Rows; [|eassumption]; simpl; lia].
  - unfold login_required, betting. branch_cases; simpl snd;
      first [apply Same | eapply Rows; [|eassumption]; simpl; lia].
  - unfold login_required, internet. branch_cases; simpl snd;
      first [apply Same | eapply Rows; [|eassumption]; simpl; lia].
Qed.

(** No sequence of requests updates or deletes a row: the tables after it
    are the tables before it followed by new rows, at most one user row and
    two transaction rows per request. *)
Theorem ledger_is_append_only (ops : list operation) (db : DB) :
  exists new_users new_rows,
    users (run_all ops db) = users db ++ new_users
    /\ transactions (run_all ops db) = transactions db ++ new_rows
    /\ (List.length new_users <= List.length ops)%nat
    /\ (List.length new_rows <= 2 * List.length ops)%nat.
Proof.
  unfold run_all. revert db.
  induction ops as [|op ops IH]; intro db; simpl fold_left.
  - exists [], []. rewrite !app_nil_r. repeat split; simpl; lia.
  - destruct (IH (snd (run op db))) as (us & rows & U & T & Lu & Lr).
    destruct (run_appends op db) as (us0 & rows0 & U0 & T0 & Lu0 & Lr0).
    exists (us0 ++ us), (rows0 ++ rows).
    rewrite U, T, U0, T0, <- !app_assoc, !length_app. simpl List.length.
    repeat split; lia.
Qed.

(** ** Keys *)

Lemma distinct_by_snoc {A : Type} (same : A -> A -> bool) (l : list A) (x : A) :
  distinct_by same l = true ->
  existsb (fun y => same y x) l = false ->
  distinct_by same (l ++ [x]) = true.
Proof.
  induction l as [|y l IH]; simpl; intros D F.
  - reflexivity.
  - apply andb_true_iff in D. destruct D as [Dy D].
    apply orb_false_iff in F. destruct F as [Fy F].
    rewrite existsb_app. simpl. rewrite Fy. simpl. rewrite orb_false_r, Dy.
    simpl. apply IH; assumption.
Qed.

Lemma next_id_not_among (ids : list nat) :
  existsb (fun y => y =? next_id ids)%nat ids = false.
Proof.
  destruct (existsb _ ids) eqn:X; [|reflexivity].
  apply existsb_exists in X. destruct X as (y & I & E).
  apply Nat.eqb_eq in E. subst y. exfalso. exact (next_id_fresh ids I).
Qed.

Lemma txn_ids_insert_rows (now : nat) (added : list new_Transaction) :
  forall txs,
    distinct_by Nat.eqb (map txn_id txs) = true ->
    distinct_by Nat.eqb (map txn_id (insert_rows txs now added)) = true.
Proof.
  induction added as [|t added IH]; intros txs D; simpl.
  - exact D.
  - apply IH. rewrite map_app. simpl.
    apply distinct_by_snoc; [exact D|apply next_id_not_among].
Qed.

Lemma no_repeat_columns (n : new_User) (us : list User) :
  existsb (repeats_unique n) us = false ->
  existsb (fun y => y =? new_email n) (map email us) = false
  /\ existsb (fun y => same_username y (new_username n)) (map username us) = false.
Proof.
  induction us as [|u us IH]; simpl; intro X; [split; reflexivity|].
  apply orb_false_iff in X. destruct X as [Xu X].
  destruct (IH X) as [E N].
  unfold repeats_unique in Xu.
  apply orb_false_iff in Xu. destruct Xu as [Xu Xn].
  apply orb_false_iff in Xu. destruct Xu as [Xe _].
  rewrite Xe, Xn, E, N. split; reflexivity.
Qed.

Lemma commit_keeps_keys (db db' : DB) (now : nat) (added : list new_Transaction) :
  keys_ok db -> commit db now added = Some db' -> keys_ok db'.
Proof.
  intros (U & T & E & N) C. apply commit_some in C. destruct C as (Us & Ts & _).
  unfold keys_ok, user_ids_unique, txn_ids_unique, emails_unique, usernames_unique.
  rewrite Us, Ts. repeat split; try assumption.
  apply txn_ids_insert_rows. exact T.
Qed.

Lemma run_keeps_keys (op : operation) (db : DB) :
  keys_ok db -> keys_ok (snd (run op db)).
Proof.
  intro K. destruct op; simpl run.
  - unfold signup. branch_cases; simpl snd; try exact K.
    eapply commit_keeps_keys; [|apply commit_welcome].
    match goal with H : commit_user _ _ = Some _ |- _ =>
      apply commit_user_appends in H;
      destruct H as (U & T & I & Em & _ & Un & X) end.
    destruct (no_repeat_columns _ _ X) as [Xe Xn].
    destruct K as (Ku & Kt & Ke & Kn).
    unfold keys_ok, user_ids_unique, txn_ids_unique, emails_unique, usernames_unique.
    rewrite U, T, !map_app. simpl. rewrite I, Em, Un.
    repeat split.
    + apply distinct_by_snoc; [exact Ku|apply next_id_not_among].
    + exact Kt.
    + apply distinct_by_snoc; [exact Ke|exact Xe].
    + apply distinct_by_snoc; [exact Kn|exact Xn].
  - unfold login_required, deposit.
    branch_cases; simpl snd; first [exact K | eapply commit_keeps_keys; [exact K|eassumption]].
  - unfold login_required, withdraw.
    branch_cases; simpl snd; first [exact K | eapply commit_keeps_keys; [exact K|eassumption]].
  - unfold login_required, transfer.
    branch_cases; simpl snd; first [exact K | eapply commit_keeps_keys; [exact K|eassumption]].
  - unfold login_required, betting.
    branch_cases; simpl snd; first [exact K | eapply commit_keeps_keys; [exact K|eassumption]].
  - unfold login_required, internet.
    branch_cases; simpl snd; first [exact K | eapply commit_keeps_keys; [exact K|eassumption]].
Qed.

Lemma reachable_keys_ok (db : DB) : reachable db -> keys_ok db.
Proof.
  induction 1 as [|op db _ IH].
  - repeat split.
  - apply run_keeps_keys. exact IH.
Qed.

Lemma find_by_distinct_key {K : Type} (key : User -> K) (same : K -> K -> bool)
      (l : list User) (user : User) :
  distinct_by same (map key l) = true ->
  same (key user) (key user) = true ->
  In user l ->
  find (fun u => same (key u) (key user)) l = Some user.
Proof.
  intros D R. induction l as [|x l IH]; simpl; intro I; [contradiction|].
  simpl in D. apply andb_true_iff in D. destruct D as [Fresh D].
  destruct I as [->|I].
  - rewrite R. reflexivity.
  - destruct (same (key x) (key user)) eqn:E.
    + apply negb_true_iff in Fresh.
      assert (X : existsb (same (key x)) (map key l) = true).
      { apply existsb_exists. exists (key user). split; [apply in_map; exact I|exact E]. }
      congruence.
    + apply IH; assumption.
Qed.

(** In every database the application can reach, the primary keys of both
    tables, the e-mail addresses and the user names are pairwise distinct. *)
Theorem reachable_keys_unique (db : DB) :
  reachable db ->
  user_ids_unique db = true /\ txn_ids_unique db = true
  /\ emails_unique db = true /\ usernames_unique db = true.
Proof.
  exact (reachable_keys_ok db).
Qed.

Lemma reachable_keys_unique_witness :
  user_ids_unique two_accounts = true /\ txn_ids_unique two_accounts = true
  /\ emails_unique two_accounts = true /\ usernames_unique two_accounts = true.
Proof.
  apply (reachable_keys_unique two_accounts).
  unfold two_accounts. apply reachable_run. apply reachable_run. apply reachable_empty.
Defined.

(** In a reachable database every lookup the routes use finds the row it
    is asked for: a user row is found by its primary key, by its account
    number and by its e-mail address. *)
Theorem reachable_lookups_find_row (db : DB) (user : User) :
  reachable db ->
  In user (users db) ->
  load_user db (id user) = Some user
  /\ filter_by_account_number db (Some (account_number user)) = Some user
  /\ filter_by_email db (email user) = Some user.
Proof.
  intros R I. destruct (reachable_keys_ok db R) as (U & _ & E & _).
  split; [|split].
  - apply (find_by_distinct_key id Nat.eqb); [exact U|apply Nat.eqb_refl|exact I].
  - apply own_account_number_found; [|exact I]. apply reachable_well_formed. exact R.
  - apply (find_by_distinct_key email String.eqb); [exact E|apply String.eqb_refl|exact I].
Qed.

Lemma reachable_lookups_find_row_witness :
  load_user two_accounts (id bob) = Some bob
  /\ filter_by_account_number two_accounts (Some (account_number bob)) = Some bob
  /\ filter_by_email two_accounts (email bob) = Some bob.
Proof.
  apply (reachable_lookups_find_row two_accounts bob).
  - unfold two_accounts. apply reachable_run. apply reachable_run. apply reachable_empty.
  - simpl. right. left. reflexivity.
Defined.

(** ** Seed deposits *)

Lemma run_keeps_rows (op : operation) (db : DB) (t : Transaction) :
  In t (transactions db) -> In t (transactions (snd (run op db))).
Proof.
  intro I. destruct (run_appends op db) as (_ & rows & _ & T & _).
  rewrite T. apply in_or_app. left. exact I.
Qed.

Lemma run_seeds_new_users (op : operation) (db : DB) (user : User) :
  In user (users (snd (run op db))) ->
  In user (users db) \/ has_welcome_bonus (snd (run op db)) user.
Proof.
  destruct op; simpl run.
  - unfold signup. branch_cases; simpl snd; auto.
    match goal with H : commit_user _ _ = Some _ |- _ =>
      apply commit_user_appends in H; destruct H as (U & T & _) end.
    simpl users. rewrite U. intro I. apply in_app_or in I.
    destruct I as [I|[<-|[]]]; [left; exact I|right].
    match goal with
    | |- context [row_of ?txs ?n ?w] => exists (row_of txs n w)
    end.
    split; [|split; [repeat split|reflexivity]].
    simpl. apply in_or_app. right. left. reflexivity.
  - unfold login_required, deposit. branch_cases; simpl snd; keep_users; auto.
  - unfold login_required, withdraw. branch_cases; simpl snd; keep_users; auto.
  - unfold login_required, transfer. branch_cases; simpl snd; keep_users; auto.
  - unfold login_required, betting. branch_cases; simpl snd; keep_users; auto.
  - unfold login_required, internet. branch_cases; simpl snd; keep_users; auto.
Qed.

(** Every account of a reachable database still owns its seed: a Deposit
    row of 1000 described "Welcome bonus". *)
Theorem reachable_accounts_have_welcome_bonus (db : DB) (user : User) :
  reachable db ->
  In user (users db) ->
  has_welcome_bonus db user.
Proof.
  intro R. revert user. induction R as [|op db _ IH]; intros user I.
  - contradiction.
  - destruct (run_seeds_new_users op db user I) as [Old|New]; [|exact New].
    destruct (IH user Old) as (t & It & Row & D).
    exists t. split; [apply run_keeps_rows; exact It|]. split; assumption.
Qed.

Lemma reachable_accounts_have_welcome_bonus_witness :
  has_welcome_bonus two_accounts bob.
Proof.
  apply (reachable_accounts_have_welcome_bonus two_accounts bob).
  - unfold two_accounts. apply reachable_run. apply reachable_run. apply reachable_empty.
  - simpl. right. left. reflexivity.
Defined.

(** ** Opening accounts *)

Lemma find_email_in (l : list User) (user : User) :
  In user l -> exists found, find (fun u => email u =? email user) l = Some found.
Proof.
  induction l as [|x l IH]; simpl; intro I; [contradiction|].
  destruct (email x =? email user) eqn:E; [eauto|].
  destruct I as [->|I]; [rewrite String.eqb_refl in E; discriminate|apply IH; exact I].
Qed.

(** An e-mail address opens one account only: a signup that passes the
    field checks but names the address of an existing account is refused
    with "Email already registered!" and changes nothing. *)
Theorem signup_refuses_registered_email
        (req : request) (randint : N) (db : DB) (user : User) :
  method req = POST ->
  truthy (form_get req "password") = true ->
  truthy (form_get req "confirm_password") = false
  \/ form_get req "confirm_password" = form_get req "password" ->
  In user (users db) ->
  form_get req "email" = Some (email user) ->
  email user <> EmptyString ->
  signup req randint db = (flash_redirect "Email already registered!" "danger" "signup", db).
Proof.
  intros M P C I E NE. unfold signup. rewrite M, E, P. cbv zeta.
  assert (Te : truthy (Some (email user)) = true).
  { destruct (email user); [contradiction|reflexivity]. }
  rewrite Te. simpl negb. simpl orb. cbv iota.
  replace (truthy (form_get req "confirm_password")
           && negb (fmt (form_get req "password") =? fmt (form_get req "confirm_password")))
    with false.
  - simpl fmt. unfold filter_by_email.
    destruct (find_email_in (users db) user I) as (found & F). rewrite F. reflexivity.
  - destruct C as [C|C].
    + rewrite C. reflexivity.
    + rewrite C, String.eqb_refl. simpl. rewrite andb_false_r. reflexivity.
Qed.

Lemma signup_refuses_registered_email_witness :
  signup (post 5 [("email", "bob@example.com"); ("password", "other")]) 100000000009 two_accounts
  = (flash_redirect "Email already registered!" "danger" "signup", two_accounts).
Proof.
  apply (signup_refuses_registered_email
           (post 5 [("email", "bob@example.com"); ("password", "other")])
           100000000009 two_accounts bob).
  - reflexivity.
  - reflexivity.
  - left. reflexivity.
  - simpl. right. left. reflexivity.
  - reflexivity.
  - discriminate.
Defined.

Lemma find_account_number_in (l : list User) (a : string) :
  (exists u, In u l /\ account_number u = a) ->
  forall n, new_account_number n = a -> existsb (repeats_unique n) l = true.
Proof.
  intros (u & I & E) n N. apply existsb_exists. exists u. split; [exact I|].
  unfold repeats_unique. rewrite N, E, String.eqb_refl. simpl.
  rewrite orb_true_r. reflexivity.
Qed.

(** A drawn account number that is already in use is not redrawn: the
    commit of the user row fails on the unique constraint, the request ends
    in a server error, and neither an account nor a seed row is created. *)
Theorem signup_account_number_collision
        (req : request) (randint : N) (db : DB) (user : User) :
  In user (users db) ->
  account_number user = str randint ->
  snd (signup req randint db) = db
  /\ (method req = POST ->
      (forall message, fst (signup req randint db) <> flash_redirect message "danger" "signup") ->
      fst (signup req randint db) = internal_server_error).
Proof.
  intros I A.
  assert (X : forall n, new_account_number n = str randint -> commit_user db n = None).
  { intros n N. unfold commit_user.
    rewrite (find_account_number_in (users db) (str randint)); [reflexivity| |exact N].
    exists user. split; assumption. }
  unfold signup. cbv zeta. rewrite X by reflexivity.
  branch_cases; simpl fst; simpl snd; (split; [reflexivity|]); intros M H;
    try reflexivity; try discriminate; exfalso; eapply H; reflexivity.
Qed.

Lemma signup_account_number_collision_witness :
  snd (signup carol_signup 100000000002 two_accounts) = two_accounts
  /\ fst (signup carol_signup 100000000002 two_accounts) = internal_server_error.
Proof.
  destruct (signup_account_number_collision carol_signup 100000000002 two_accounts bob)
    as [S E].
  - simpl. right. left. reflexivity.
  - reflexivity.
  - split; [exact S|]. apply E.
    + reflexivity.
    + intro message. vm_compute. discriminate.
Defined.

Lemma find_snoc_fresh {A : Type} (f : A -> bool) (l : list A) (x : A) :
  existsb f l = false -> f x = true -> find f (l ++ [x]) = Some x.
Proof.
  induction l as [|y l IH]; simpl; intros E F.
  - rewrite F. reflexivity.
  - apply orb_false_iff in E. destruct E as [Ey E]. rewrite Ey. apply IH; assumption.
Qed.

Lemma existsb_map {A B : Type} (f : B -> bool) (g : A -> B) (l : list A) :
  existsb f (map g l) = existsb (fun x => f (g x)) l.
Proof.
  induction l as [|x l IH]; simpl; [reflexivity|]. rewrite IH. reflexivity.
Qed.

Lemma no_repeat_account_number (n : new_User) (us : list User) :
  existsb (repeats_unique n) us = false ->
  existsb (fun u => account_number u =? new_account_number n) us = false.
Proof.
  induction us as [|u us IH]; simpl; intro X; [reflexivity|].
  apply orb_false_iff in X. destruct X as [Xu X].
  unfold repeats_unique in Xu.
  apply orb_false_iff in Xu. destruct Xu as [Xu _].
  apply orb_false_iff in Xu. destruct Xu as [_ Xa].
  rewrite Xa. simpl. apply IH. exact X.
Qed.

(** Right after a successful signup the new account can be found the three
    ways the routes look accounts up: by the primary key given to it, by
    the account number that was drawn, and by the e-mail address of the
    form. *)
Theorem signup_then_lookup (req : request) (randint : N) (db : DB) :
  fst (signup req randint db)
  = flash_redirect "Account created successfully! Please log in." "success" "login" ->
  exists new_user,
    users (snd (signup req randint db)) = users db ++ [new_user]
    /\ load_user (snd (signup req randint db)) (id new_user) = Some new_user
    /\ filter_by_account_number (snd (signup req randint db)) (Some (str randint))
       = Some new_user
    /\ filter_by_email (snd (signup req randint db)) (fmt (form_get req "email"))
       = Some new_user.
Proof.
  unfold signup. branch_cases; simpl fst; try discriminate. intros _. simpl snd.
  match goal with H : commit_user _ _ = Some _ |- _ =>
    apply commit_user_appends in H;
    destruct H as (U & _ & I & Em & Ac & _ & X) end.
  destruct (no_repeat_columns _ _ X) as [Xe _].
  pose proof (no_repeat_account_number _ _ X) as Xa.
  simpl in Em, Ac, Xe, Xa.
  match goal with H : users _ = users db ++ [?new_user] |- _ => exists new_user end.
  unfold load_user, filter_by_account_number, filter_by_email. simpl users.
  rewrite U. split; [reflexivity|]. split; [|split].
  - apply find_snoc_fresh; [|apply Nat.eqb_refl].
    rewrite I.
    rewrite <- (existsb_map (fun y => (y =? next_id (map id (users db)))%nat) id).
    apply next_id_not_among.
  - apply find_snoc_fresh; [exact Xa|]. rewrite Ac. apply String.eqb_refl.
  - apply find_snoc_fresh; [|rewrite Em; apply String.eqb_refl].
    rewrite existsb_map in Xe. exact Xe.
Qed.

Lemma signup_then_lookup_witness :
  exists new_user,
    users (snd (signup carol_signup 100000000003 two_accounts)) = users two_accounts ++ [new_user]
    /\ load_user (snd (signup carol_signup 100000000003 two_accounts)) (id new_user)
       = Some new_user
    /\ filter_by_account_number (snd (signup carol_signup 100000000003 two_accounts))
                                (Some (str 100000000003))
       = Some new_user
    /\ filter_by_email (snd (signup carol_signup 100000000003 two_accounts))
                       (fmt (form_get carol_signup "email"))
       = Some new_user.
Proof.
  apply (signup_then_lookup carol_signup 100000000003 two_accounts).
  reflexivity.
Defined.

(** ** The pages that show the ledger *)

Lemma total_balance_loop_from (txs : list Transaction) (start : PrimFloat.float) :
  fold_left dashboard_step txs start = fold_left PrimFloat.add (map signed_amount txs) start.
Proof.
  revert start. induction txs as [|t txs IH]; intro start; simpl; [reflexivity|].
  rewrite IH. f_equal. unfold dashboard_step, signed_amount.
  destruct (txn_type t =? "Deposit"); [reflexivity|apply sub_add_opp].
Qed.

Lemma total_balance_loop_is_balance (txs : list Transaction) :
  total_balance_loop txs = balance txs.
Proof.
  apply total_balance_loop_from.
Qed.

(** The dashboard runs the computation of the debit routes over the rows
    of the account read in date order: its total balance is the [sum]
    expression of [withdraw], [transfer] and [betting] evaluated on the
    rows sorted by date, so that it is the balance those routes check
    whenever the rows of the account are stored in date order; and its
    transaction count is the number of rows of the account. *)
Theorem dashboard_shows_checked_balance (current_user : User) (db : DB) :
  total_balance (fst (dashboard current_user db))
  = balance (order_by_date (user_transactions db current_user))
  /\ (order_by_date (user_transactions db current_user) = user_transactions db current_user ->
      total_balance (fst (dashboard current_user db)) = compute_balance db current_user)
  /\ transactions_count (fst (dashboard current_user db))
     = List.length (user_transactions db current_user).
Proof.
  unfold dashboard, compute_balance. simpl. split; [|split].
  - apply total_balance_loop_is_balance.
  - intros ->. apply total_balance_loop_is_balance.
  - apply Permutation_length. apply order_by_date_perm.
Qed.

Lemma dashboard_shows_checked_balance_witness :
  total_balance (fst (dashboard alice busy_ledger)) = compute_balance busy_ledger alice.
Proof.
  apply (proj1 (proj2 (dashboard_shows_checked_balance alice busy_ledger))).
  vm_compute; reflexivity.
Defined.

Lemma last5_suffix (txs : list Transaction) :
  txs = firstn (List.length txs - 5) txs ++ last5 txs.
Proof.
  unfold last5. symmetry. apply firstn_skipn.
Qed.

(** The dashboard lists the latest rows of the account: at most five rows,
    all five when the account has that many, each a row of the account, in
    ascending date order, and no row left out is later than a row shown. *)
Theorem dashboard_lists_latest_rows (current_user : User) (db : DB) :
  let shown := snd (dashboard current_user db) in
  List.length shown = Nat.min 5 (List.length (user_transactions db current_user))
  /\ (forall t, In t shown -> In t (transactions db) /\ user_id t = id current_user)
  /\ StronglySorted by_date shown
  /\ (forall t s, In t (user_transactions db current_user) -> ~ In t shown -> In s shown ->
                  (date t <= date s)%nat).
Proof.
  cbv zeta. unfold dashboard. simpl snd.
  set (rows := user_transactions db current_user).
  pose proof (order_by_date_perm rows) as P.
  pose proof (order_by_date_sorted rows) as S.
  pose proof (last5_suffix (order_by_date rows)) as E.
  set (sorted := order_by_date rows) in *.
  split; [|split; [|split]].
  - unfold last5. rewrite length_skipn, (Permutation_length P). lia.
  - intros t I.
    assert (It : In t rows).
    { apply (Permutation_in _ P). rewrite E. apply in_or_app. right. exact I. }
    unfold rows, user_transactions in It. apply filter_In in It.
    destruct It as [It O]. split; [exact It|apply Nat.eqb_eq; exact O].
  - rewrite E in S. revert S. generalize (firstn (List.length sorted - 5) sorted).
    induction l as [|x l IH]; simpl; intro S; [exact S|].
    apply IH. inversion S; assumption.
  - intros t s It Nt Is.
    apply (Permutation_in _ (Permutation_sym P)) in It. fold sorted in It.
    rewrite E in It, S. apply in_app_or in It. destruct It as [It|It]; [|contradiction].
    revert S It. generalize (firstn (List.length sorted - 5) sorted).
    induction l as [|x l IH]; simpl; intros S It; [contradiction|].
    inversion S as [|? ? S' F]; subst. destruct It as [<-|It].
    + rewrite Forall_forall in F. apply F. apply in_or_app. right. exact Is.
    + apply IH; assumption.
Qed.

Lemma insert_by_date_desc_perm (t : Transaction) (sorted : list Transaction) :
  Permutation (insert_by_date_desc t sorted) (t :: sorted).
Proof.
  induction sorted as [|x rest IH]; simpl.
  - reflexivity.
  - destruct (date x <? date t)%nat.
    + reflexivity.
    + rewrite IH. apply perm_swap.
Qed.

Lemma order_by_date_desc_perm (txs : list Transaction) :
  Permutation (order_by_date_desc txs) txs.
Proof.
  unfold order_by_date_desc.
  assert (G : forall acc,
             Permutation (fold_left (fun sorted t => insert_by_date_desc t sorted) txs acc)
                         (acc ++ txs)).
  { induction txs as [|t txs IH]; intro acc; simpl.
    - rewrite app_nil_r. reflexivity.
    - rewrite IH, insert_by_date_desc_perm. apply Permutation_middle. }
  apply (G []).
Qed.

Lemma insert_by_date_desc_sorted (t : Transaction) (sorted : list Transaction) :
  StronglySorted (fun a b => by_date b a) sorted ->
  StronglySorted (fun a b => by_date b a) (insert_by_date_desc t sorted).
Proof.
  induction 1 as [|x rest S IH F]; simpl.
  - repeat constructor.
  - destruct (date x <? date t)%nat eqn:L.
    + apply Nat.ltb_lt in L. constructor; [constructor; assumption|].
      constructor; [unfold by_date; lia|].
      rewrite Forall_forall in *. intros y I. specialize (F y I). unfold by_date in *. lia.
    + apply Nat.ltb_ge in L. constructor; [exact IH|].
      rewrite Forall_forall in *. intros y I.
      apply (Permutation_in _ (insert_by_date_desc_perm t rest)) in I.
      destruct I as [<-|I]; [exact L|apply F; exact I].
Qed.

(** The transactions page lists the account's own rows and nothing else:
    every row of the account, each as often as it is stored, no row of
    another account, latest first. *)
Theorem transactions_page_lists_own_rows (current_user : User) (db : DB) :
  Permutation (transactions_page current_user db) (user_transactions db current_user)
  /\ (forall t, In t (transactions_page current_user db)
                <-> In t (transactions db) /\ user_id t = id current_user)
  /\ StronglySorted (fun a b => by_date b a) (transactions_page current_user db).
Proof.
  unfold transactions_page.
  pose proof (order_by_date_desc_perm (user_transactions db current_user)) as P.
  split; [exact P|]. split.
  - intro t. split.
    + intro I. apply (Permutation_in _ P) in I. unfold user_transactions in I.
      apply filter_In in I. destruct I as [I O]. split; [exact I|apply Nat.eqb_eq; exact O].
    + intros [I O]. apply (Permutation_in _ (Permutation_sym P)).
      unfold user_transactions. apply filter_In. split; [exact I|apply Nat.eqb_eq; exact O].
  - unfold order_by_date_desc.
    assert (G : forall txs acc,
               StronglySorted (fun a b => by_date b a) acc ->
               StronglySorted (fun a b => by_date b a)
                 (fold_left (fun sorted t => insert_by_date_desc t sorted) txs acc)).
    { induction txs as [|t txs IH]; intros acc S; simpl; [exact S|].
      apply IH. apply insert_by_date_desc_sorted. exact S. }
    apply G. constructor.
Qed.

Lemma dashboard_lists_latest_rows_witness :
  List.length (snd (dashboard alice busy_ledger)) = 5%nat
  /\ forall s, In s (snd (dashboard alice busy_ledger)) -> (1 <= date s)%nat.
Proof.
  destruct (dashboard_lists_latest_rows alice busy_ledger) as (L & _ & _ & Latest).
  split; [exact L|]. intros s Is.
  apply (Latest {| txn_id := 1; user_id := 1; txn_type := "Deposit"; amount := 1000%float;
                   date := 1; description := "Welcome bonus" |} s).
  - vm_compute. left. reflexivity.
  - vm_compute. intro H. repeat (destruct H as [H|H]; [discriminate H|]). exact H.
  - exact Is.
Defined.

Lemma transactions_page_lists_own_rows_witness :
  In {| txn_id := 2; user_id := 2; txn_type := "Deposit"; amount := 1000%float;
        date := 2; description := "Welcome bonus" |} (transactions_page bob two_accounts).
Proof.
  apply (proj1 (proj2 (transactions_page_lists_own_rows bob two_accounts))).
  split; [|reflexivity]. simpl. right. left. reflexivity.
Defined.

(** ** Upload checks *)

Lemma rsplit1_no_sep (sep : ascii) (s : string) :
  contains_char sep s = false -> rsplit1 sep s = [s].
Proof.
  induction s as [|x s IH]; simpl; intro C; [reflexivity|].
  apply orb_false_iff in C. destruct C as [Cx C].
  rewrite (IH C), Cx. reflexivity.
Qed.

Lemma rsplit1_last (sep : ascii) (stem ext : string) :
  contains_char sep ext = false ->
  rsplit1 sep (stem ++ String sep ext)%string = [stem; ext].
Proof.
  intro C. induction stem as [|x stem IH]; simpl.
  - rewrite (rsplit1_no_sep sep ext C), Ascii.eqb_refl. reflexivity.
  - rewrite IH. reflexivity.
Qed.

Lemma contains_char_app (c : ascii) (s s' : string) :
  contains_char c (s ++ s')%string = contains_char c s || contains_char c s'.
Proof.
  induction s as [|x s IH]; simpl; [reflexivity|]. rewrite IH, orb_assoc. reflexivity.
Qed.

Lemma rsplit1_decompose (sep : ascii) (s : string) :
  contains_char sep s = true ->
  exists stem ext, s = (stem ++ String sep ext)%string /\ contains_char sep ext = false.
Proof.
  induction s as [|x s IH]; simpl; intro C; [discriminate|].
  destruct (contains_char sep s) eqn:Cs.
  - destruct (IH eq_refl) as (stem & ext & -> & E). exists (String x stem), ext. auto.
  - rewrite orb_false_r in C. apply Ascii.eqb_eq in C. subst x.
    exists EmptyString, s. auto.
Qed.

(** Whether an upload is accepted depends on the text after the last dot of
    its name only, compared without regard to case: a name is allowed
    exactly when it is some stem, a dot, and a dot-free extension that in
    lower case is png, jpg, jpeg or gif.  A name without a dot is refused. *)
Theorem allowed_file_by_extension (filename : string) :
  (contains_char "." filename = false -> allowed_file filename = false)
  /\ (forall stem ext,
         filename = (stem ++ String "." ext)%string ->
         contains_char "." ext = false ->
         allowed_file filename = existsb (String.eqb (lower ext)) ALLOWED_EXTENSIONS)
  /\ (allowed_file filename = true <->
      exists stem ext,
        filename = (stem ++ String "." ext)%string /\ contains_char "." ext = false
        /\ In (lower ext) ALLOWED_EXTENSIONS).
Proof.
  assert (B : forall stem ext,
             filename = (stem ++ String "." ext)%string ->
             contains_char "." ext = false ->
             allowed_file filename = existsb (String.eqb (lower ext)) ALLOWED_EXTENSIONS).
  { intros stem ext -> C. unfold allowed_file.
    rewrite contains_char_app, (rsplit1_last "." stem ext C). simpl contains_char.
    rewrite orb_true_r. reflexivity. }
  split; [|split].
  - intro C. unfold allowed_file. rewrite C. reflexivity.
  - exact B.
  - split.
    + intro A.
      assert (C : contains_char "." filename = true).
      { unfold allowed_file in A. apply andb_true_iff in A. tauto. }
      destruct (rsplit1_decompose "." filename C) as (stem & ext & E & Ce).
      exists stem, ext. split; [exact E|]. split; [exact Ce|].
      rewrite (B stem ext E Ce) in A. apply existsb_exists in A.
      destruct A as (x & I & X). apply String.eqb_eq in X. subst x. exact I.
    + intros (stem & ext & E & Ce & I). rewrite (B stem ext E Ce).
      apply existsb_exists. exists (lower ext). split; [exact I|apply String.eqb_refl].
Qed.

Lemma allowed_file_by_extension_witness :
  allowed_file "holiday.2024.JPeG" = true /\ allowed_file "photo.png.exe" = false
  /\ allowed_file "README" = false.
Proof.
  split; [|split].
  - apply (proj2 (proj2 (allowed_file_by_extension "holiday.2024.JPeG"))).
    exists "holiday.2024", "JPeG". split; [reflexivity|]. split; [reflexivity|].
    simpl. right. right. left. reflexivity.
  - rewrite (proj1 (proj2 (allowed_file_by_extension "photo.png.exe")) "photo.png" "exe");
      reflexivity.
  - apply (proj1 (allowed_file_by_extension "README")). reflexivity.
Defined.

Lemma split1_decompose (sep : ascii) (s header rest : string) :
  split1 sep s = [header; rest] ->
  s = (header ++ String sep rest)%string /\ contains_char sep header = false.
Proof.
  revert header. induction s as [|x s IH]; simpl; intro header; [discriminate|].
  destruct (Ascii.eqb x sep) eqn:X.
  - intros [= <- <-]. apply Ascii.eqb_eq in X. subst x. auto.
  - destruct (split1 sep s) as [|h [|r [|? ?]]] eqn:S; try discriminate.
    intros [= <- <-]. destruct (IH h eq_refl) as [-> C]. simpl. rewrite X, C. auto.
Qed.

(** A selfie is stored only from a data URL that starts with "data:image",
    has a comma, decodes and can be written; the path returned is then
    uploads/selfies/selfie_<uuid>.<ext>, where the extension is taken from
    the text before the first comma: png when it mentions image/png, jpg
    when it mentions image/jpeg or image/jpg instead, and png for every
    other image type. *)
Theorem selfie_path_shape (b64decode : string -> option string)
        (data_url : option string) (uuid_hex : string) (write_ok : bool) (path : string) :
  save_base64_selfie_get_static_path b64decode data_url uuid_hex write_ok = Some path ->
  exists url header encoded ext,
    data_url = Some url
    /\ prefix "data:image" url = true
    /\ url = (header ++ String "," encoded)%string
    /\ contains_char "," header = false
    /\ b64decode encoded <> None
    /\ write_ok = true
    /\ path = ("uploads/selfies/selfie_" ++ uuid_hex ++ "." ++ ext)%string
    /\ (ext = "jpg" /\ contains "image/png" header = false
                    /\ (contains "image/jpeg" header || contains "image/jpg" header) = true
        \/ ext = "png" /\ (contains "image/png" header = true
                           \/ (contains "image/jpeg" header || contains "image/jpg" header)
                              = false)).
Proof.
  unfold save_base64_selfie_get_static_path.
  destruct (truthy data_url) eqn:T; cbn [negb]; [|discriminate].
  destruct data_url as [url|]; [|discriminate T].
  cbn [fmt]. destruct (prefix "data:image" url) eqn:P; cbn [negb]; [|discriminate].
  destruct (split1 "," url) as [|header [|encoded [|? ?]]] eqn:S; try discriminate.
  destruct (split1_decompose "," url header encoded S) as [E C].
  destruct (b64decode encoded) eqn:D; [|discriminate].
  destruct write_ok; [|discriminate].
  intros [= <-].
  destruct (contains "image/png" header) eqn:Png;
    [|destruct (contains "image/jpeg" header || contains "image/jpg" header) eqn:Jpg].
  - exists url, header, encoded, "png". repeat split; auto; congruence.
  - exists url, header, encoded, "jpg". repeat split; auto; congruence.
  - exists url, header, encoded, "png". repeat split; auto; congruence.
Qed.

Lemma selfie_path_shape_witness :
  exists url header encoded ext,
    Some "data:image/jpeg;base64,QUJD" = Some url
    /\ prefix "data:image" url = true
    /\ url = (header ++ String "," encoded)%string
    /\ contains_char "," header = false
    /\ (fun s => Some s) encoded <> None
    /\ true = true
    /\ "uploads/selfies/selfie_0f3a.jpg" = ("uploads/selfies/selfie_" ++ "0f3a" ++ "." ++ ext)%string
    /\ (ext = "jpg" /\ contains "image/png" header = false
                    /\ (contains "image/jpeg" header || contains "image/jpg" header) = true
        \/ ext = "png" /\ (contains "image/png" header = true
                           \/ (contains "image/jpeg" header || contains "image/jpg" header)
                              = false)).
Proof.
  apply (selfie_path_shape (fun s => Some s) (Some "data:image/jpeg;base64,QUJD") "0f3a" true
                           "uploads/selfies/selfie_0f3a.jpg").
  reflexivity.
Defined.

(** ** Profile updates *)

Lemma set_username_keeps_columns (db : DB) (current_user : User) (name : option string) :
  map id (users (set_username db current_user name)) = map id (users db)
  /\ map email (users (set_username db current_user name)) = map email (users db)
  /\ map account_number (users (set_username db current_user name))
     = map account_number (users db)
  /\ map account_type (users (set_username db current_user name))
     = map account_type (users db).
Proof.
  unfold set_username. simpl users. rewrite !map_map.
  repeat split; apply map_ext; intro u; destruct (id u =? id current_user)%nat; reflexivity.
Qed.

(** A profile update never touches the ledger: no transaction row changes,
    every user row keeps its primary key, e-mail address, account number
    and account type, and so every derived balance and the uniqueness of
    account numbers are what they were. *)
Theorem profile_keeps_ledger (current_user : User) (req : request) (db : DB) :
  transactions (snd (profile current_user req db)) = transactions db
  /\ map id (users (snd (profile current_user req db))) = map id (users db)
  /\ map email (users (snd (profile current_user req db))) = map email (users db)
  /\ map account_number (users (snd (profile current_user req db)))
     = map account_number (users db)
  /\ map account_type (users (snd (profile current_user req db)))
     = map account_type (users db)
  /\ (forall account,
         compute_balance (snd (profile current_user req db)) account
         = compute_balance db account)
  /\ account_numbers_unique (snd (profile current_user req db)) = account_numbers_unique db.
Proof.
  assert (K : snd (profile current_user req db) = db
              \/ exists name, snd (profile current_user req db)
                              = set_username db current_user name).
  { unfold profile. branch_cases; simpl snd; eauto. }
  destruct K as [->|(name & ->)].
  - repeat split.
  - destruct (set_username_keeps_columns db current_user name) as (I & E & A & T).
    repeat split; try assumption.
    unfold account_numbers_unique. rewrite A. reflexivity.
Qed.

Lemma same_username_sym (a b : option string) : same_username a b = same_username b a.
Proof.
  destruct a, b; simpl; try reflexivity. apply String.eqb_sym.
Qed.

Lemma set_username_elsewhere (current_user : User) (name : option string) (l : list User) :
  existsb (Nat.eqb (id current_user)) (map id l) = false ->
  map (fun u => if (id u =? id current_user)%nat
                then {| id := id u; account_type := account_type u; username := name;
                        email := email u; account_number := account_number u |}
                else u) l = l.
Proof.
  induction l as [|x l IH]; simpl; intro N; [reflexivity|].
  apply orb_false_iff in N. destruct N as [Nx N].
  rewrite Nat.eqb_sym, Nx, (IH N). reflexivity.
Qed.

Lemma set_username_distinct (current_user : User) (name : option string) (l : list User) :
  (forall u, In u l ->
             same_username (username u) name && negb (id u =? id current_user)%nat = false) ->
  distinct_by Nat.eqb (map id l) = true ->
  distinct_by same_username (map username l) = true ->
  distinct_by same_username
    (map username
       (map (fun u => if (id u =? id current_user)%nat
                      then {| id := id u; account_type := account_type u; username := name;
                              email := email u; account_number := account_number u |}
                      else u) l)) = true.
Proof.
  induction l as [|x l IH]; simpl; intros Free I N; [reflexivity|].
  apply andb_true_iff in I. destruct I as [Ix I].
  apply andb_true_iff in N. destruct N as [Nx N].
  apply negb_true_iff in Ix. apply negb_true_iff in Nx.
  assert (Free' : forall u, In u l ->
             same_username (username u) name && negb (id u =? id current_user)%nat = false)
    by (intros u Iu; apply Free; right; exact Iu).
  destruct (id x =? id current_user)%nat eqn:X.
  - apply Nat.eqb_eq in X. rewrite X in Ix.
    rewrite (set_username_elsewhere current_user name l Ix). simpl username.
    rewrite N, andb_true_r. apply negb_true_iff.
    destruct (existsb (same_username name) (map username l)) eqn:Ex; [|reflexivity].
    apply existsb_exists in Ex. destruct Ex as (n & In_n & S).
    apply in_map_iff in In_n. destruct In_n as (u & <- & Iu).
    specialize (Free' u Iu). rewrite same_username_sym, S in Free'. simpl in Free'.
    apply negb_false_iff in Free'. apply Nat.eqb_eq in Free'.
    assert (Y : existsb (Nat.eqb (id current_user)) (map id l) = true).
    { apply existsb_exists. exists (id u). split; [apply in_map; exact Iu|].
      rewrite Free'. apply Nat.eqb_refl. }
    congruence.
  - rewrite (IH Free' I N), andb_true_r. apply negb_true_iff.
    match goal with |- existsb _ ?m = false => destruct (existsb (same_username (username x)) m) eqn:Ex end;
      [|reflexivity].
    apply existsb_exists in Ex. destruct Ex as (n & In_n & S).
    apply in_map_iff in In_n. destruct In_n as (v & <- & Iv).
    apply in_map_iff in Iv. destruct Iv as (u & <- & Iu).
    destruct (id u =? id current_user)%nat eqn:U; simpl in S.
    + pose proof (Free x (or_introl eq_refl)) as Fx. rewrite S, X in Fx. discriminate.
    + assert (Y : existsb (same_username (username x)) (map username l) = true).
      { apply existsb_exists. exists (username u). split; [apply in_map; exact Iu|exact S]. }
      congruence.
Qed.

(** The route keeps user names unique: when primary keys and user names
    are pairwise distinct before a profile request they are after it. *)
Theorem profile_keeps_usernames_unique (current_user : User) (req : request) (db : DB) :
  user_ids_unique db = true ->
  usernames_unique db = true ->
  usernames_unique (snd (profile current_user req db)) = true.
Proof.
  intros I N. unfold profile. branch_cases; simpl snd; try exact N.
  unfold usernames_unique, set_username. simpl users.
  apply set_username_distinct; try assumption.
  match goal with H : is_some (username_taken _ _ _) = false |- _ => rename H into T end.
  unfold username_taken in T.
  destruct (find _ (users db)) eqn:F; [discriminate|].
  intros u Iu. exact (find_none _ _ F u Iu).
Qed.

Lemma profile_keeps_usernames_unique_witness :
  usernames_unique (snd (profile alice (post 8 [("username", "alice")]) two_accounts)) = true.
Proof.
  apply (profile_keeps_usernames_unique alice (post 8 [("username", "alice")]) two_accounts).
  - reflexivity.
  - reflexivity.
Defined.

(** A user name that another account holds is refused: the answer is
    "Username already taken. Choose another." and no row is changed. *)
Theorem profile_refuses_taken_username
        (current_user other : User) (req : request) (db : DB) (name : string) :
  method req = POST ->
  form_get req "username" = Some name ->
  name <> EmptyString ->
  In other (users db) ->
  username other = Some name ->
  id other <> id current_user ->
  profile current_user req db
  = (flash_redirect "Username already taken. Choose another." "danger" "profile", db).
Proof.
  intros M F NE I U D. unfold profile. rewrite M, F.
  assert (T : truthy (Some name) = true) by (destruct name; [contradiction|reflexivity]).
  rewrite T. unfold username_taken.
  destruct (find _ (users db)) eqn:X; [reflexivity|].
  pose proof (find_none _ _ X other I) as Y. simpl in Y.
  rewrite U in Y. simpl in Y. rewrite String.eqb_refl in Y.
  apply Nat.eqb_neq in D. rewrite D in Y. discriminate.
Qed.

Lemma profile_refuses_taken_username_witness :
  profile alice (post 8 [("username", "bob")]) two_accounts
  = (flash_redirect "Username already taken. Choose another." "danger" "profile", two_accounts).
Proof.
  apply (profile_refuses_taken_username alice bob (post 8 [("username", "bob")])
                                        two_accounts "bob").
  - reflexivity.
  - reflexivity.
  - discriminate.
  - simpl. right. left. reflexivity.
  - reflexivity.
  - simpl. lia.
Defined.

(** ** The price of a data bundle *)

Lemma split_last_no_naira (p cur : string) :
  contains_char (ascii_of_nat 226) p = false ->
  split_last_from naira p 0 cur = cur.
Proof.
  revert cur. induction p as [|c p IH]; intros cur C; [reflexivity|].
  simpl in C. apply orb_false_iff in C. destruct C as [Cc C].
  cbn [split_last_from].
  replace (prefix naira (String c p)) with false.
  - apply IH. exact C.
  - unfold naira. cbn [prefix]. destruct (ascii_dec (ascii_of_nat 226) c) as [<-|]; [|reflexivity].
    rewrite Ascii.eqb_refl in Cc. discriminate.
Qed.

(** What the scan may still have to pass over: the rest of a naira sign. *)
Lemma split_last_before_price (label price : string) :
  contains_char (ascii_of_nat 226) price = false ->
  forall (skip : nat) (cur : string),
    match skip with
    | 0 => True
    | 1 => prefix (String (ascii_of_nat 166) EmptyString) (label ++ naira ++ price)%string = true
    | 2 => prefix (String (ascii_of_nat 130) (String (ascii_of_nat 166) EmptyString))
                  (label ++ naira ++ price)%string = true
    | _ => False
    end%nat ->
    split_last_from naira (label ++ naira ++ price)%string skip cur = price.
Proof.
  intro C. induction label as [|c label IH]; intros skip cur K.
  - destruct skip as [|[|[|?]]]; try (exfalso; exact K);
      try (vm_compute in K; discriminate K).
    cbn. replace (prefix "" price) with true by (destruct price; reflexivity).
    apply split_last_no_naira. exact C.
  - change ((String c label ++ naira ++ price)%string)
      with (String c (label ++ naira ++ price)%string) in *.
    cbn [split_last_from].
    destruct skip as [|[|[|?]]]; try (exfalso; exact K).
    + destruct (prefix naira (String c (label ++ naira ++ price))) eqn:P.
      * apply IH. change (String.length naira - 1)%nat with 2%nat. cbv iota.
        unfold naira in P at 1. cbn [prefix] in P.
        destruct (ascii_dec (ascii_of_nat 226) c); [exact P|discriminate P].
      * apply IH. exact I.
    + apply IH. exact I.
    + apply IH. cbn [prefix] in K.
      destruct (ascii_dec (ascii_of_nat 130) c); [exact K|discriminate K].
Qed.

(** The price of a bundle is read after its last naira sign, with commas
    and surrounding white space removed; a bundle text without a naira
    sign is taken as the price as a whole.  ([price] is any text free of
    byte 226, the first byte of the sign: any ASCII text.) *)
Theorem bundle_price_after_naira (label price : string) :
  contains_char (ascii_of_nat 226) price = false ->
  bundle_price (label ++ naira ++ price)%string = strip (remove_char "," price)
  /\ bundle_price price = strip (remove_char "," price).
Proof.
  intro C. unfold bundle_price, split_last. split.
  - rewrite (split_last_before_price label price C 0 _ I). reflexivity.
  - rewrite (split_last_no_naira price price C). reflexivity.
Qed.

Lemma bundle_price_after_naira_witness :
  bundle_price ("10GB - " ++ naira ++ " 5,000 ")%string = strip (remove_char "," " 5,000 ")
  /\ bundle_price " 5,000 " = strip (remove_char "," " 5,000 ").
Proof.
  apply (bundle_price_after_naira "10GB - " " 5,000 ").
  reflexivity.
Defined.
(** ** Signs and owners *)

(** The sign of a transfer is not checked, and the recipient's funds never
    are: a transfer of a negative amount by a sender whose derived balance
    is not negative, to another existing account, is accepted whatever the
    recipient holds.  The sender's derived balance becomes the binary64 sum
    of the old balance and the absolute amount, the recipient's the
    binary64 sum of the old balance and the (negative) amount. *)
Theorem negative_transfer_draws_from_recipient
        (sender recipient : User) (req : request) (db : DB) (a : PrimFloat.float) :
  method req = POST ->
  float (form_get req "amount") = Some a ->
  PrimFloat.ltb a 0 = true ->
  PrimFloat.leb 0 (compute_balance db sender) = true ->
  filter_by_account_number db (form_get req "target_account") = Some recipient ->
  id recipient <> id sender ->
  fst (transfer sender req db)
  = flash_redirect "Transfer successful!" "success" "transactions_page"
  /\ (exists s r,
         transactions (snd (transfer sender req db)) = transactions db ++ [s; r]
         /\ is_row s sender "Transfer" a /\ is_row r recipient "Deposit" a)
  /\ compute_balance (snd (transfer sender req db)) sender
     = PrimFloat.add (compute_balance db sender) (PrimFloat.opp a)
  /\ compute_balance (snd (transfer sender req db)) recipient
     = PrimFloat.add (compute_balance db recipient) a.
Proof.
  intros M F Neg B R D.
  pose proof (negative_passes_funds_check _ _ Neg B) as G.
  pose proof (negative_not_nan a Neg) as N.
  destruct (transfer_outcome sender recipient req db a M F R G N)
    as [Ok (s & r & E & (Su & St & Sa) & (Ru & Rt & Ra))].
  rewrite (negative_stored a Neg) in Sa, Ra.
  split; [exact Ok|]. split; [exists s, r; repeat split; assumption|].
  assert (Ds : (id recipient =? id sender)%nat = false) by (apply Nat.eqb_neq; exact D).
  assert (Dr : (id sender =? id recipient)%nat = false)
    by (apply Nat.eqb_neq; intro; apply D; congruence).
  split.
  - rewrite (compute_balance_extended _ _ _ sender E). simpl.
    rewrite Su, Ru, Nat.eqb_refl, Ds. simpl.
    unfold signed_amount. rewrite St, Sa. reflexivity.
  - rewrite (compute_balance_extended _ _ _ recipient E). simpl.
    rewrite Su, Ru, Nat.eqb_refl, Dr. simpl.
    unfold signed_amount. rewrite Rt, Ra. reflexivity.
Qed.

Lemma negative_transfer_draws_from_recipient_witness :
  compute_balance (snd (transfer alice (transfer_request "100000000002" "-3000") two_accounts))
                  alice
  = 4000%float
  /\ compute_balance (snd (transfer alice (transfer_request "100000000002" "-3000") two_accounts))
                     bob
     = (-2000)%float.
Proof.
  destruct (negative_transfer_draws_from_recipient
              alice bob (transfer_request "100000000002" "-3000") two_accounts (-3000)%float)
    as (_ & _ & S & R).
  - reflexivity.
  - vm_compute; reflexivity.
  - reflexivity.
  - vm_compute; reflexivity.
  - vm_compute; reflexivity.
  - simpl; lia.
  - split.
    + rewrite S. vm_compute. reflexivity.
    + rewrite R. vm_compute. reflexivity.
Defined.

(** In a reachable database every transaction row has exactly one owner:
    one user row carries its [user_id], and no second one does. *)
Theorem reachable_rows_have_one_owner (db : DB) (t : Transaction) :
  reachable db ->
  In t (transactions db) ->
  exists owner,
    In owner (users db) /\ id owner = user_id t
    /\ forall u, In u (users db) -> id u = user_id t -> u = owner.
Proof.
  intros R I.
  destruct (reachable_well_formed db R) as [FK _].
  destruct (reachable_keys_ok db R) as (U & _).
  unfold foreign_keys_ok in FK. rewrite forallb_forall in FK.
  specialize (FK t I). apply existsb_exists in FK. destruct FK as (owner & Io & E).
  apply Nat.eqb_eq in E.
  exists owner. split; [exact Io|]. split; [exact E|].
  intros u Iu Eu.
  pose proof (find_by_distinct_key id Nat.eqb (users db) owner U (Nat.eqb_refl _) Io) as Fo.
  pose proof (find_by_distinct_key id Nat.eqb (users db) u U (Nat.eqb_refl _) Iu) as Fu.
  rewrite Eu, <- E in Fu. congruence.
Qed.

Lemma reachable_rows_have_one_owner_witness :
  exists owner,
    In owner (users two_accounts) /\ id owner = 2%nat
    /\ forall u, In u (users two_accounts) -> id u = 2%nat -> u = owner.
Proof.
  apply (reachable_rows_have_one_owner
           two_accounts
           {| txn_id := 2; user_id := 2; txn_type := "Deposit"; amount := 1000%float;
              date := 2; description := "Welcome bonus" |}).
  - unfold two_accounts. apply reachable_run. apply reachable_run. apply reachable_empty.
  - simpl. right. left. reflexivity.
Defined.
